(** * Health-Insights-Agent: the chat core ([ChatAgent] and [ai_service])

    A shallow embedding of [src/agent/chat_agent.py] and
    [src/services/ai_service.py], with the properties of the
    specification stated over it.

    Python text is modelled as [string]: one [ascii] per character.
    Everything the program delegates to a library or a hosted service
    (text splitter, embedding index, chat completion, secrets) is an
    oracle of the record [Externals]; every call to one is logged as an
    [Event], so that statements such as "no LLM call is issued" or "the
    index is rebuilt" are statements about the trace. An [Externals]
    value says how the services answer during one call of the service;
    two consecutive calls may run against two different values. *)

From Stdlib Require Import List String Ascii Bool Arith ZArith QArith Lia.
Import ListNotations.
Close Scope Q_scope.
Open Scope string_scope.

(** ** Python string and list primitives *)

Module Py.

Definition nl_char : ascii := ascii_of_nat 10.
Definition nl : string := String nl_char "".

(** [str.isspace] on one character (code points below 256). *)
Definition is_space (c : ascii) : bool :=
  let n := nat_of_ascii c in
  (((9 <=? n) && (n <=? 13)) || ((28 <=? n) && (n <=? 32))
   || (n =? 133) || (n =? 160))%nat.

Fixpoint lstrip (s : string) : string :=
  match s with
  | "" => ""
  | String c s' => if is_space c then lstrip s' else s
  end.

Fixpoint rstrip (s : string) : string :=
  match s with
  | "" => ""
  | String c s' =>
      let r := rstrip s' in
      if (r =? "") && is_space c then "" else String c r
  end.

(** [s.strip()] *)
Definition strip (s : string) : string := rstrip (lstrip s).

(** [s.startswith(p)] *)
Fixpoint startswith (p s : string) : bool :=
  match p, s with
  | "", _ => true
  | String _ _, "" => false
  | String a p', String b s' => Ascii.eqb a b && startswith p' s'
  end.

(** [s.find(sub)]: the lowest index where [sub] occurs, [None] for -1. *)
Fixpoint find_nat (sub s : string) : option nat :=
  if startswith sub s then Some 0
  else match s with
       | "" => None
       | String _ s' => option_map S (find_nat sub s')
       end.

Definition find (sub s : string) : Z :=
  match find_nat sub s with
  | Some n => Z.of_nat n
  | None => (-1)%Z
  end.

(** [sub in s] *)
Definition contains (sub s : string) : bool :=
  match find_nat sub s with Some _ => true | None => false end.

Definition len (s : string) : Z := Z.of_nat (String.length s).

(** A slice bound, as Python clamps it. *)
Definition clamp (n : nat) (i : Z) : nat :=
  if (i <? 0)%Z then Z.to_nat (Z.max 0 (Z.of_nat n + i))
  else Nat.min n (Z.to_nat i).

(** [s[i:j]] *)
Definition slice (i j : Z) (s : string) : string :=
  let a := clamp (String.length s) i in
  let b := clamp (String.length s) j in
  substring a (b - a) s.

(** [c in s] for a single character *)
Fixpoint has_char (c : ascii) (s : string) : bool :=
  match s with
  | "" => false
  | String d s' => Ascii.eqb c d || has_char c s'
  end.

(** [s.endswith(t)] *)
Definition endswith (t s : string) : bool :=
  (String.length t <=? String.length s)%nat
  && (substring (String.length s - String.length t) (String.length t) s =? t).

(** [s * n] *)
Fixpoint mul (s : string) (n : nat) : string :=
  match n with
  | O => ""
  | S n' => s ++ mul s n'
  end.

(** [s[:n]] *)
Definition take (n : nat) (s : string) : string := substring 0 n s.

(** [l[-n:]] for [n > 0] *)
Definition last_n {A} (n : nat) (l : list A) : list A :=
  skipn (List.length l - n) l.

(** [sep.join(l)] *)
Definition join (sep : string) (l : list string) : string :=
  String.concat sep l.

(** A Python value used as a condition: the empty string is false,
    and so is the empty list. *)
Definition truthy (s : string) : bool := negb (s =? "").

Definition nonempty {A} (l : list A) : bool :=
  match l with [] => false | _ :: _ => true end.

End Py.

(** ** Chat messages *)

(** A history message that has both keys. Dicts that may lack one, and
    the [KeyError] their reads raise, are [RawMessage] below. *)
Record Message := mkMessage { role : string; content : string }.

(** ** The sentinel text protocol ([ai_service.py], lines 74-96) *)

Definition START_MARK : string := "__REPORT_TEXT__".
Definition END_MARK : string := "__END_REPORT_TEXT__".
Definition START_LINE : string := START_MARK ++ Py.nl.
Definition END_LINE : string := Py.nl ++ END_MARK.

(** Line 78: the test that selects a message. The body of the first
    loop for one message: [Some text] when the loop assigns
    [context_text] and breaks, [None] when it moves on. *)
Definition carries_sentinel (msg : Message) : bool :=
  (role msg =? "system") && Py.contains START_MARK (content msg).

Definition extract_report_text (msg : Message) : option string :=
  if carries_sentinel msg then
    let content := content msg in
    let start_idx := (Py.find START_LINE content + Py.len START_LINE)%Z in
    let end_idx := Py.find END_LINE content in
    if (start_idx >? Py.len START_LINE - 1)%Z && (end_idx >? start_idx)%Z
    then Some (Py.slice start_idx end_idx content)
    else None
  else None.

(** [for msg in chat_history: ... break], threading [context_text]. *)
Fixpoint scan_report_text (context_text : string) (chat_history : list Message)
  : string :=
  match chat_history with
  | [] => context_text
  | msg :: rest =>
      match extract_report_text msg with
      | Some text => text
      | None => scan_report_text context_text rest
      end
  end.

Definition long_assistant (msg : Message) : bool :=
  (role msg =? "assistant") && (100 <? String.length (content msg))%nat.

(** [for msg in reversed(chat_history): ... break] *)
Fixpoint scan_assistant (context_text : string) (reversed_history : list Message)
  : string :=
  match reversed_history with
  | [] => context_text
  | msg :: rest =>
      if long_assistant msg then Py.take 5000 (content msg)
      else scan_assistant context_text rest
  end.

(** Lines 74-96: the context after both recovery steps. *)
Definition recover_context (context_text : string) (chat_history : list Message)
  : string :=
  if negb (Py.truthy context_text) && Py.nonempty chat_history then
    let context_text := scan_report_text context_text chat_history in
    if negb (Py.truthy context_text)
    then scan_assistant context_text (rev chat_history)
    else context_text
  else context_text.

(** ** Exceptions, external services and the trace of calls *)

Inductive ExnKind := KeyError | ImportError | OtherError.

(** A raised exception: its class, [str(e)] and the text
    [traceback.format_exc()] gives for it. *)
Record Exn := mkExn { kind : ExnKind; message : string; traceback : string }.

(** The FAISS index: the chunks it was built from. Ranking is left to
    the retrieval oracle. *)
Record VectorStore := mkVectorStore { chunks : list string }.

Record CompletionRequest := mkRequest {
  model : string;
  messages : list Message;
  temperature : Q;
  max_tokens : nat
}.

(** The analysis agent ([agents.analysis_agent]) is only constructed and
    stored here. *)
Inductive AnalysisAgent := mkAnalysisAgent.

Record Externals := mkExternals {
  (** [RecursiveCharacterTextSplitter.split_text] *)
  split_text : string -> list string;
  (** [FAISS.from_texts(texts, embeddings)]: [Some e] when it raises *)
  from_texts : list string -> option Exn;
  (** [as_retriever(search_kwargs={"k": k}).get_relevant_documents(q)],
      as the [page_content] of the documents *)
  get_relevant_documents : VectorStore -> nat -> string -> Exn + list string;
  (** [client.chat.completions.create(...).choices[0].message.content] *)
  chat_completions_create : CompletionRequest -> Exn + string;
  (** [AnalysisAgent()] *)
  new_AnalysisAgent : option Exn;
  (** [from agents.chat_agent import ChatAgent] *)
  import_ChatAgent : option Exn;
  (** ["GROQ_API_KEY" in st.secrets] *)
  has_groq_key : Exn + bool;
  (** [ChatAgent()] *)
  new_ChatAgent : option Exn
}.

(** The calls that are logged. [st.spinner] only decorates the page and
    is left out; [st.warning] is the one message the service shows. *)
Inductive Event :=
| SplitText (text : string)
| FromTexts (texts : list string)
| GetRelevantDocuments (vs : VectorStore) (k : nat) (query : string)
| ChatCompletion (req : CompletionRequest)
| Warning (msg : string).

(** Agent-level computations: a trace and a value or a raised exception. *)
Definition Eff (A : Type) : Type := (list Event * (Exn + A))%type.

Definition ret {A} (a : A) : Eff A := ([], inr a).
Definition raise {A} (e : Exn) : Eff A := ([], inl e).
Definition emit (ev : Event) : Eff unit := ([ev], inr tt).

Definition bind {A B} (m : Eff A) (f : A -> Eff B) : Eff B :=
  match m with
  | (t, inl e) => (t, inl e)
  | (t, inr a) => let (t', r) := f a in ((t ++ t')%list, r)
  end.

(** [try: m except Exception as e: h e] *)
Definition try_except {A} (m : Eff A) (h : Exn -> Eff A) : Eff A :=
  match m with
  | (t, inl e) => let (t', r) := h e in ((t ++ t')%list, r)
  | (t, inr a) => (t, inr a)
  end.

Declare Scope eff_scope.
Delimit Scope eff_scope with eff.
Notation "x <- m ;; k" := (bind m (fun x => k))
  (at level 61, m at next level, right associativity) : eff_scope.
Notation "m ;;; k" := (bind m (fun _ => k))
  (at level 61, right associativity) : eff_scope.

Definition trace_of {A} (m : Eff A) : list Event := fst m.
Definition value_of {A} (m : Eff A) : Exn + A := snd m.

Definition is_FromTexts (ev : Event) : bool :=
  match ev with FromTexts _ => true | _ => false end.
Definition is_ChatCompletion (ev : Event) : bool :=
  match ev with ChatCompletion _ => true | _ => false end.

(** The index is (re)built: [FAISS.from_texts] is called. *)
Definition rebuilds (t : list Event) : bool := existsb is_FromTexts t.
(** The requests sent to the chat-completion endpoint, in order. *)
Definition completions (t : list Event) : list CompletionRequest :=
  flat_map (fun ev => match ev with ChatCompletion r => [r] | _ => [] end) t.

(** ** [ChatAgent] ([chat_agent.py]) *)

Record ChatAgent := mkChatAgent {
  model_name : string;
  chunk_size : nat;
  chunk_overlap : nat
}.

(** What [ChatAgent.__init__] builds when it does not raise. *)
Definition ChatAgent_init : ChatAgent :=
  {| model_name := "llama-3.3-70b-versatile";
     chunk_size := 1000; chunk_overlap := 200 |}.

Definition PLACEHOLDER : string := "No report context available.".

(** Lines 81-82: [None] stands for the empty history. *)
Definition history_of (chat_history : option (list Message)) : list Message :=
  match chat_history with None => [] | Some h => h end.

Section Agent.

Variable self : ChatAgent.
Variable ext : Externals.

Local Open Scope eff_scope.

Definition call_from_texts (texts : list string) : Eff VectorStore :=
  emit (FromTexts texts) ;;;
  match from_texts ext texts with
  | Some exn => raise exn
  | None => ret (mkVectorStore texts)
  end.

Definition call_retriever (vs : VectorStore) (k : nat) (query : string)
  : Eff (list string) :=
  emit (GetRelevantDocuments vs k query) ;;;
  match get_relevant_documents ext vs k query with
  | inl exn => raise exn
  | inr docs => ret docs
  end.

Definition call_completion (req : CompletionRequest) : Eff string :=
  emit (ChatCompletion req) ;;;
  match chat_completions_create ext req with
  | inl exn => raise exn
  | inr text => ret text
  end.

(** Lines 20-27: the text that is split, and the chunks handed to
    [FAISS.from_texts]. *)
Definition effective_text (text_content : string) : string :=
  if negb (Py.truthy text_content) || (Py.strip text_content =? "")
  then "No report context available."
  else text_content.

Definition index_texts (text_content : string) : list string :=
  let text_content := effective_text text_content in
  let texts := split_text ext text_content in
  if negb (Py.nonempty texts) then [text_content] else texts.

Definition initialize_vector_store (text_content : string) : Eff VectorStore :=
  emit (SplitText (effective_text text_content)) ;;;
  call_from_texts (index_texts text_content).

Definition _format_chat_history (chat_history : list Message) : list Message :=
  map (fun msg => {| role := role msg; content := content msg |}) chat_history.

Definition history_line (msg : Message) : string :=
  (if role msg =? "user" then "User" else "Assistant") ++ ": " ++ content msg.

Definition contextualize_prompt (query : string) (chat_history : list Message)
  : string :=
  let recent_history := Py.last_n 4 chat_history in
  let history_text := Py.join Py.nl (map history_line recent_history) in
  "Given a chat history and the latest user question, formulate a standalone question which can be understood without the chat history. Do NOT answer the question, just reformulate it if needed and otherwise return it as is."
  ++ Py.nl ++ Py.nl ++ "Chat History:" ++ Py.nl ++ history_text
  ++ Py.nl ++ Py.nl ++ "Latest User Question: " ++ query
  ++ Py.nl ++ Py.nl ++ "Standalone Question:".

Definition _contextualize_query (query : string) (chat_history : list Message)
  : Eff string :=
  if negb (Py.nonempty chat_history) then ret query
  else
    try_except
      (response <- call_completion
         {| model := model_name self;
            messages :=
              [ {| role := "system";
                   content := "You reformulate questions to be standalone." |};
                {| role := "user";
                   content := contextualize_prompt query chat_history |} ];
            temperature := (1 # 10)%Q;
            max_tokens := 200 |} ;;
       ret (Py.strip response))
      (fun _ => ret query).

Definition qa_system_prompt : string :=
  "You are an assistant for question-answering tasks. "
  ++ "Use the following pieces of retrieved context to answer the question. "
  ++ "If you don't know the answer, just say that you don't know. "
  ++ "Use three sentences maximum and keep the answer concise.".

(** Lines 88-98: retrieval, with the placeholder turned into no context. *)
Definition retrieve_context (vectorstore : VectorStore)
    (contextualized_query : string) : Eff string :=
  try_except
    (docs <- call_retriever vectorstore 3 contextualized_query ;;
     let context := Py.join (Py.nl ++ Py.nl) docs in
     ret (if Py.strip context =? "No report context available."
          then "" else context))
    (fun _ => ret "").

(** Lines 124 and 127: the two phrasings of the user message *)
Definition with_context (context query : string) : string :=
  "Context:" ++ Py.nl ++ context ++ Py.nl ++ Py.nl ++ "Question: " ++ query.

Definition history_only (query : string) : string :=
  "Question: " ++ query ++ Py.nl ++ Py.nl
  ++ "Note: No report context is available. Please answer based on the chat history.".

(** Lines 119-127 *)
Definition user_message (context query : string) : string :=
  if Py.truthy context && Py.truthy (Py.strip context)
     && negb (Py.strip context =? "No report context available.")
  then with_context context query
  else history_only query.

(** Lines 109-128 *)
Definition build_messages (context query : string) (chat_history : list Message)
  : list Message :=
  let messages := [ {| role := "system"; content := qa_system_prompt |} ] in
  let messages :=
    if Py.nonempty chat_history
    then (messages ++ _format_chat_history (Py.last_n 6 chat_history))%list
    else messages in
  (messages ++ [ {| role := "user"; content := user_message context query |} ])%list.

(** Lines 132-137: the request of the final completion call *)
Definition answer_request (context query : string)
    (chat_history : list Message) : CompletionRequest :=
  {| model := model_name self;
     messages := build_messages context query chat_history;
     temperature := (7 # 10)%Q;
     max_tokens := 500 |}.

(** Lines 131-140 as a function of the request: what the final call
    makes [get_response] return. *)
Definition answer_of (req : CompletionRequest) : string :=
  match chat_completions_create ext req with
  | inl e => "Error generating response: " ++ message e
  | inr text => text
  end.

Definition get_response (query : string) (vectorstore : VectorStore)
    (chat_history : option (list Message)) : Eff string :=
  let chat_history := history_of chat_history in
  contextualized_query <- _contextualize_query query chat_history ;;
  context <- retrieve_context vectorstore contextualized_query ;;
  try_except
    (call_completion (answer_request context query chat_history))
    (fun e => ret ("Error generating response: " ++ message e)).

End Agent.

(** ** The session store and [ai_service.py] *)

(** [st.session_state], restricted to the keys the service uses. A key
    that is not in the store is [None]; [chat_agent] and
    [chat_agent_error] can be in the store and hold Python's [None]. *)
Record Session := mkSession {
  analysis_agent : option AnalysisAgent;
  chat_agent : option (option ChatAgent);
  chat_agent_error : option (option string);
  vector_store : option VectorStore;
  vector_store_key : option nat
}.

Definition empty_session : Session :=
  {| analysis_agent := None; chat_agent := None; chat_agent_error := None;
     vector_store := None; vector_store_key := None |}.

Definition set_chat_agent (s : Session) (a : option ChatAgent)
    (err : option string) : Session :=
  {| analysis_agent := analysis_agent s;
     chat_agent := Some a; chat_agent_error := Some err;
     vector_store := vector_store s;
     vector_store_key := vector_store_key s |}.

Definition set_vector_store (s : Session) (vs : VectorStore) (key : nat)
  : Session :=
  {| analysis_agent := analysis_agent s;
     chat_agent := chat_agent s; chat_agent_error := chat_agent_error s;
     vector_store := Some vs;
     vector_store_key := Some key |}.

(** The result of a service call: what it logged, the store it left and
    the string it returned (or the exception that escaped). *)
Record Outcome := mkOutcome {
  trace : list Event;
  session : Session;
  value : Exn + string
}.

Section Service.

Variable ext : Externals.

(** Lines 12-21: the body of the [try] *)
Definition try_chat_agent : Exn + (option ChatAgent * option string) :=
  match import_ChatAgent ext with
  | Some exn => inl exn
  | None =>
      match has_groq_key ext with
      | inl exn => inl exn
      | inr false =>
          inr (None,
               Some "GROQ_API_KEY not found in secrets. Please add it to .streamlit/secrets.toml")
      | inr true =>
          match new_ChatAgent ext with
          | Some exn => inl exn
          | None => inr (Some ChatAgent_init, None)
          end
      end
  end.

(** Lines 22-38: the three [except] clauses *)
Definition chat_agent_failure (e : Exn) : string :=
  match kind e with
  | KeyError =>
      "Missing configuration: " ++ message e
      ++ ". Please check your .streamlit/secrets.toml file."
  | ImportError =>
      "Missing dependencies: " ++ message e
      ++ ". Please install required packages."
  | OtherError =>
      "Failed to initialize chat agent: " ++ message e
      ++ Py.nl ++ Py.nl ++ "Details: " ++ Py.take 500 (traceback e)
  end.

(** [init_analysis_state]: [inl] when [AnalysisAgent()] raises. *)
Definition init_analysis_state (s : Session) : Exn + Session :=
  let step1 :=
    match analysis_agent s with
    | Some _ => inr s
    | None =>
        match new_AnalysisAgent ext with
        | Some exn => inl exn
        | None =>
            inr {| analysis_agent := Some mkAnalysisAgent;
                   chat_agent := chat_agent s;
                   chat_agent_error := chat_agent_error s;
                   vector_store := vector_store s;
                   vector_store_key := vector_store_key s |}
        end
    end in
  match step1 with
  | inl exn => inl exn
  | inr s =>
      match chat_agent s with
      | Some _ => inr s
      | None =>
          match try_chat_agent with
          | inr (agent, err) => inr (set_chat_agent s agent err)
          | inl e => inr (set_chat_agent s None (Some (chat_agent_failure e)))
          end
      end
  end.

(** [f"{x}"] for a value that is a string or [None] *)
Definition format_opt (x : option string) : string :=
  match x with Some v => v | None => "None" end.

Definition EMPTY_CONTEXT : string :=
  "No report context available. Relying on chat history only.".

Definition default_error : string :=
  "Chat functionality is currently unavailable. Please check your GROQ_API_KEY configuration in .streamlit/secrets.toml".

(** Lines 74-106: the context text the index is built from. *)
Definition context_for_index (context_text : string)
    (chat_history : list Message) : string :=
  let context_text := recover_context context_text chat_history in
  if negb (Py.truthy context_text) then EMPTY_CONTEXT else context_text.

(** Lines 108-110 *)
Definition cache_miss (s : Session) (context_text : string) : bool :=
  match vector_store s with
  | None => true
  | Some _ =>
      match vector_store_key s with
      | None => true
      | Some key => negb (key =? String.length context_text)%nat
      end
  end.

Definition attribute_error (name : string) : Exn :=
  {| kind := OtherError; message := name; traceback := "" |}.

(** Lines 133-135: the final call, after the events [t] so far. *)
Definition respond (agent : ChatAgent) (query : string)
    (chat_history : list Message) (t : list Event) (s : Session) : Outcome :=
  match vector_store s with
  | None =>
      {| trace := t; session := s;
         value := inl (attribute_error "vector_store") |}
  | Some vs =>
      let (t', r) := get_response agent ext query vs (Some chat_history) in
      {| trace := (t ++ t')%list; session := s; value := r |}
  end.

(** Lines 108-131: the cache check and the (re)build with its fallback;
    [Some error] is the early return of the last resort. *)
Definition ensure_vector_store (context_text : string) (s : Session)
  : list Event * Session * option string :=
  if cache_miss s context_text then
    match initialize_vector_store ext context_text with
    | (t, inr vs) =>
        (t, set_vector_store s vs (String.length context_text), None)
    | (t, inl e) =>
        let t := (t ++ [Warning ("Could not create vector store: "
                                 ++ message e
                                 ++ ". Using chat history only.")])%list in
        match initialize_vector_store ext "No report context available." with
        | (t', inr vs) => ((t ++ t')%list, set_vector_store s vs 0, None)
        | (t', inl _) =>
            ((t ++ t')%list, s,
             Some ("Error: Could not initialize vector store. " ++ message e))
        end
    end
  else ([], s, None).

Definition get_chat_response (query context_text : string)
    (chat_history : list Message) (s : Session) : Outcome :=
  match init_analysis_state s with
  | inl exn => {| trace := []; session := s; value := inl exn |}
  | inr s =>
  match chat_agent s with
  | None =>
      {| trace := []; session := s;
         value := inl (attribute_error "chat_agent") |}
  | Some None =>
      let error_msg :=
        match chat_agent_error s with
        | None => default_error
        | Some v => format_opt v
        end in
      {| trace := []; session := s; value := inr ("Error: " ++ error_msg) |}
  | Some (Some agent) =>
      let context_text := context_for_index context_text chat_history in
      match ensure_vector_store context_text s with
      | (t, s, Some error) => {| trace := t; session := s; value := inr error |}
      | (t, s, None) => respond agent query chat_history t s
      end
  end
  end.

End Service.

(** ** [main.py]: how [handle_chat_input] finds the report text *)

(** Lines 88-106, with [current_report_text] read from the session. *)
Definition handle_chat_input_context (current_report_text : string)
    (messages : list Message) : string :=
  let context_text := current_report_text in
  if negb (Py.truthy context_text) && Py.nonempty messages
  then scan_report_text context_text messages
  else context_text.

(** How a report is stored in a system message. *)
Definition embed_report (text : string) : string :=
  START_LINE ++ text ++ END_LINE.

(** ** Sample inputs *)

Module Sample.

Definition report : string := "Patient BP 140/90.".

Definition report_msg : Message :=
  {| role := "system"; content := embed_report report |}.

Definition question : Message :=
  {| role := "user"; content := "What is the blood pressure?" |}.

(** An analysis of 5001 characters. *)
Definition long_analysis : Message :=
  {| role := "assistant"; content := "a" ++ Py.mul "b" 5000 |}.

Definition boom : Exn :=
  {| kind := OtherError; message := "service unavailable";
     traceback := "Traceback (most recent call last): ..." |}.

(** The splitter on a text shorter than one chunk: the stripped text,
    or nothing when that is empty. *)
Definition split_short (text : string) : list string :=
  if Py.strip text =? "" then [] else [Py.strip text].

(** Services that all work: retrieval ranks the chunks in index order,
    the model answers with a fixed sentence. *)
Definition services : Externals :=
  {| split_text := split_short;
     from_texts := fun _ => None;
     get_relevant_documents := fun vs k _ => inr (firstn k (chunks vs));
     chat_completions_create := fun _ => inr "The blood pressure is 140/90.";
     new_AnalysisAgent := None;
     import_ChatAgent := None;
     has_groq_key := inr true;
     new_ChatAgent := None |}.

(** As [services], but embedding fails on every text except the
    placeholder of the fallback path. *)
Definition flaky_embedding : Externals :=
  {| split_text := split_short;
     from_texts := fun texts =>
       match texts with
       | [t] => if t =? PLACEHOLDER then None else Some boom
       | _ => Some boom
       end;
     get_relevant_documents := fun vs k _ => inr (firstn k (chunks vs));
     chat_completions_create := fun _ => inr "The blood pressure is 140/90.";
     new_AnalysisAgent := None;
     import_ChatAgent := None;
     has_groq_key := inr true;
     new_ChatAgent := None |}.

(** As [services], but the completion endpoint is down. *)
Definition no_completion : Externals :=
  {| split_text := split_short;
     from_texts := fun _ => None;
     get_relevant_documents := fun vs k _ => inr (firstn k (chunks vs));
     chat_completions_create := fun _ => inl boom;
     new_AnalysisAgent := None;
     import_ChatAgent := None;
     has_groq_key := inr true;
     new_ChatAgent := None |}.

(** As [services], but the API key is not configured. *)
Definition no_api_key : Externals :=
  {| split_text := split_short;
     from_texts := fun _ => None;
     get_relevant_documents := fun vs k _ => inr (firstn k (chunks vs));
     chat_completions_create := fun _ => inr "The blood pressure is 140/90.";
     new_AnalysisAgent := None;
     import_ChatAgent := None;
     has_groq_key := inr false;
     new_ChatAgent := None |}.

End Sample.

(** ** Observations on traces and sequences of calls *)

(** The retrievals of a trace: store, [k] and query of each. *)
Definition retrievals (t : list Event) : list (VectorStore * nat * string) :=
  flat_map (fun ev => match ev with
                      | GetRelevantDocuments vs k q => [(vs, k, q)]
                      | _ => []
                      end) t.

(** The chunk lists handed to [FAISS.from_texts], in order. *)
Definition index_builds (t : list Event) : list (list string) :=
  flat_map (fun ev => match ev with FromTexts texts => [texts] | _ => [] end) t.

(** Lines 63-74 of [chat_agent.py]: the reformulation request. *)
Definition contextualize_request (self : ChatAgent) (query : string)
    (chat_history : list Message) : CompletionRequest :=
  {| model := model_name self;
     messages :=
       [ {| role := "system";
            content := "You reformulate questions to be standalone." |};
         {| role := "user";
            content := contextualize_prompt query chat_history |} ];
     temperature := (1 # 10)%Q;
     max_tokens := 200 |}.

(** The events of one [initialize_vector_store] and of the warning of
    line 119. *)
Definition build_events (ext : Externals) (text_content : string)
  : list Event :=
  [SplitText (effective_text text_content);
   FromTexts (index_texts ext text_content)].

Definition warning_event (e : Exn) : Event :=
  Warning ("Could not create vector store: " ++ message e
           ++ ". Using chat history only.").

(** One call of the service, with the services as they answer then. *)
Record Call := mkCall {
  call_ext : Externals;
  call_query : string;
  call_context : string;
  call_history : list Message
}.

Definition call (c : Call) (s : Session) : Outcome :=
  get_chat_response (call_ext c) (call_query c) (call_context c)
    (call_history c) s.

(** The session after a sequence of calls. *)
Fixpoint run (calls : list Call) (s : Session) : Session :=
  match calls with
  | [] => s
  | c :: rest => run rest (session (call c s))
  end.

(** What holds of the session store between calls. *)
Definition session_ok (s : Session) : Prop :=
  (chat_agent s <> None -> analysis_agent s <> None)
  /\ (forall agent, chat_agent s = Some (Some agent) ->
      chat_agent_error s = Some None)
  /\ (chat_agent s = Some None ->
      exists msg, chat_agent_error s = Some (Some msg))
  /\ (vector_store s = None <-> vector_store_key s = None)
  /\ (vector_store s <> None -> exists agent, chat_agent s = Some (Some agent)).

(** ** [main.py]: the page around the chat *)

(** [st.info] and [st.success] *)
Inductive Display := Info (text : string) | Success (text : string).

(** Lines 64-71: the loop of [show_chat_history] *)
Fixpoint show_messages (messages : list Message) : list Display :=
  match messages with
  | [] => []
  | msg :: rest =>
      if role msg =? "system" then show_messages rest
      else if role msg =? "user" then Info (content msg) :: show_messages rest
      else Success (content msg) :: show_messages rest
  end.

(** [show_chat_history], given what [get_session_messages] returned:
    what is displayed and what is returned. *)
Definition show_chat_history (loaded : bool * list Message)
  : list Display * list Message :=
  let (success, messages) := loaded in
  if success then (show_messages messages, messages) else ([], []).

(** Lines 92-106 of [handle_chat_input]: the text of the message the
    loop breaks on, if any. *)
Fixpoint first_report_text (messages : list Message) : option string :=
  match messages with
  | [] => None
  | msg :: rest =>
      match extract_report_text msg with
      | Some text => Some text
      | None => first_report_text rest
      end
  end.

(** Lines 88-106 of [handle_chat_input]: the context text handed to
    [get_chat_response] and [current_report_text] in the session
    afterwards ([None] when the key is not in the session). *)
Definition handle_chat_input_report (current_report_text : option string)
    (messages : list Message) : string * option string :=
  let context_text :=
    match current_report_text with Some t => t | None => "" end in
  if negb (Py.truthy context_text) && Py.nonempty messages then
    match first_report_text messages with
    | Some text => (text, Some text)
    | None => (context_text, current_report_text)
    end
  else (context_text, current_report_text).

(** Lines 156-169 of [main]: whether the chat input is offered (the
    analysis form is shown alone otherwise). *)
Definition chat_offered (loaded : bool * list Message) : bool :=
  Py.nonempty (snd (show_chat_history loaded)).

(** ** Further sample inputs *)

Module Sample2.

Definition answer : Message :=
  {| role := "assistant"; content := "The blood pressure is 140/90." |}.

(** Seven messages: a report, then three exchanges. *)
Definition long_history : list Message :=
  [ Sample.report_msg;
    Sample.question; answer; Sample.question; answer; Sample.question; answer ].

(** An assistant message of exactly 100 characters. *)
Definition analysis_100 : Message :=
  {| role := "assistant"; content := Py.mul "b" 100 |}.

(** A user message that imitates the stored report. *)
Definition forged : Message :=
  {| role := "user"; content := embed_report "Patient BP 120/80." |}.

(** As [Sample.services], but retrieval is down. *)
Definition no_retrieval : Externals :=
  {| split_text := Sample.split_short;
     from_texts := fun _ => None;
     get_relevant_documents := fun _ _ _ => inl Sample.boom;
     chat_completions_create := fun _ => inr "The blood pressure is 140/90.";
     new_AnalysisAgent := None;
     import_ChatAgent := None;
     has_groq_key := inr true;
     new_ChatAgent := None |}.

(** As [Sample.services], but embedding always fails. *)
Definition no_embedding : Externals :=
  {| split_text := Sample.split_short;
     from_texts := fun _ => Some Sample.boom;
     get_relevant_documents := fun vs k _ => inr (firstn k (chunks vs));
     chat_completions_create := fun _ => inr "The blood pressure is 140/90.";
     new_AnalysisAgent := None;
     import_ChatAgent := None;
     has_groq_key := inr true;
     new_ChatAgent := None |}.

(** As [Sample.services], but the model pads its answers with blanks. *)
Definition padded_completion : Externals :=
  {| split_text := Sample.split_short;
     from_texts := fun _ => None;
     get_relevant_documents := fun vs k _ => inr (firstn k (chunks vs));
     chat_completions_create := fun _ => inr "  What is the pressure?  ";
     new_AnalysisAgent := None;
     import_ChatAgent := None;
     has_groq_key := inr true;
     new_ChatAgent := None |}.

(** As [Sample.services], but [ChatAgent()] raises a [KeyError]. *)
Definition broken_agent : Externals :=
  {| split_text := Sample.split_short;
     from_texts := fun _ => None;
     get_relevant_documents := fun vs k _ => inr (firstn k (chunks vs));
     chat_completions_create := fun _ => inr "The blood pressure is 140/90.";
     new_AnalysisAgent := None;
     import_ChatAgent := None;
     has_groq_key := inr true;
     new_ChatAgent :=
       Some {| kind := KeyError; message := "'GROQ_API_KEY'";
               traceback := "" |} |}.

(** As [Sample.services], but [AnalysisAgent()] raises. *)
Definition no_analysis_agent : Externals :=
  {| split_text := Sample.split_short;
     from_texts := fun _ => None;
     get_relevant_documents := fun vs k _ => inr (firstn k (chunks vs));
     chat_completions_create := fun _ => inr "The blood pressure is 140/90.";
     new_AnalysisAgent := Some Sample.boom;
     import_ChatAgent := None;
     has_groq_key := inr true;
     new_ChatAgent := None |}.

End Sample2.

(** ** History messages as dicts: the reads that can raise

    A history message is a Python dict. [Message] is the dict that has
    both keys; the definitions of this section follow the same source
    lines for a dict in which ["role"] or ["content"] may be missing:
    [msg["role"]] then raises [KeyError], while [msg.get("role")] and
    [msg.get("content", "")] do not. *)

Record RawMessage := mkRaw {
  raw_role : option string;
  raw_content : option string
}.

(** The dict of a message that has both keys. *)
Definition raw_of (msg : Message) : RawMessage :=
  {| raw_role := Some (role msg); raw_content := Some (content msg) |}.

Definition complete (msg : RawMessage) : bool :=
  match raw_role msg, raw_content msg with
  | Some _, Some _ => true
  | _, _ => false
  end.

(** A dict that lacks a key. *)
Definition incomplete (msg : RawMessage) : Prop := complete msg = false.

(** [KeyError(key)]; [str] of it quotes the key. No traceback text is
    ever formatted for it. *)
Definition key_error (key : string) : Exn :=
  {| kind := KeyError; message := "'" ++ key ++ "'"; traceback := "" |}.


(** [chat_agent.py], line 36: [msg["role"]], then [msg["content"]] *)
Definition raw_format_message (msg : RawMessage) : Exn + Message :=
  match raw_role msg with
  | None => inl (key_error "role")
  | Some r =>
      match raw_content msg with
      | None => inl (key_error "content")
      | Some c => inr {| role := r; content := c |}
      end
  end.

(** [_format_chat_history]: the loop stops at the first read that raises. *)
Fixpoint raw_format_chat_history (chat_history : list RawMessage)
  : Exn + list Message :=
  match chat_history with
  | [] => inr []
  | msg :: rest =>
      match raw_format_message msg with
      | inl e => inl e
      | inr m =>
          match raw_format_chat_history rest with
          | inl e => inl e
          | inr ms => inr (m :: ms)
          end
      end
  end.

(** [chat_agent.py], line 48: one line of the history text *)
Definition raw_history_line (msg : RawMessage) : Exn + string :=
  match raw_role msg with
  | None => inl (key_error "role")
  | Some r =>
      match raw_content msg with
      | None => inl (key_error "content")
      | Some c =>
          inr ((if r =? "user" then "User" else "Assistant") ++ ": " ++ c)
      end
  end.

(** Lines 47-50: the list comprehension *)
Fixpoint raw_history_lines (recent_history : list RawMessage)
  : Exn + list string :=
  match recent_history with
  | [] => inr []
  | msg :: rest =>
      match raw_history_line msg with
      | inl e => inl e
      | inr line =>
          match raw_history_lines rest with
          | inl e => inl e
          | inr lines => inr (line :: lines)
          end
      end
  end.

(** Lines 53-60: the prompt, from the history text *)
Definition contextualize_prompt_text (query history_text : string) : string :=
  "Given a chat history and the latest user question, formulate a standalone question which can be understood without the chat history. Do NOT answer the question, just reformulate it if needed and otherwise return it as is."
  ++ Py.nl ++ Py.nl ++ "Chat History:" ++ Py.nl ++ history_text
  ++ Py.nl ++ Py.nl ++ "Latest User Question: " ++ query
  ++ Py.nl ++ Py.nl ++ "Standalone Question:".

Definition raw_history_of (chat_history : option (list RawMessage))
  : list RawMessage :=
  match chat_history with None => [] | Some h => h end.

Section RawAgent.

Variable self : ChatAgent.
Variable ext : Externals.

Local Open Scope eff_scope.

(** [_contextualize_query]: the history text is built before the [try]. *)
Definition raw_contextualize_query (query : string)
    (chat_history : list RawMessage) : Eff string :=
  if negb (Py.nonempty chat_history) then ret query
  else
    let recent_history := Py.last_n 4 chat_history in
    match raw_history_lines recent_history with
    | inl e => raise e
    | inr lines =>
        let history_text := Py.join Py.nl lines in
        try_except
          (response <- call_completion ext
             {| model := model_name self;
                messages :=
                  [ {| role := "system";
                       content := "You reformulate questions to be standalone." |};
                    {| role := "user";
                       content := contextualize_prompt_text query history_text |} ];
                temperature := (1 # 10)%Q;
                max_tokens := 200 |} ;;
           ret (Py.strip response))
          (fun _ => ret query)
    end.

(** Lines 109-128: [_format_chat_history] is called outside any [try]. *)
Definition raw_build_messages (context query : string)
    (chat_history : list RawMessage) : Exn + list Message :=
  let messages := [ {| role := "system"; content := qa_system_prompt |} ] in
  let user := {| role := "user"; content := user_message context query |} in
  if Py.nonempty chat_history then
    match raw_format_chat_history (Py.last_n 6 chat_history) with
    | inl e => inl e
    | inr formatted_history => inr (messages ++ formatted_history ++ [user])%list
    end
  else inr (messages ++ [user])%list.

Definition raw_get_response (query : string) (vectorstore : VectorStore)
    (chat_history : option (list RawMessage)) : Eff string :=
  let chat_history := raw_history_of chat_history in
  contextualized_query <- raw_contextualize_query query chat_history ;;
  context <- retrieve_context ext vectorstore contextualized_query ;;
  match raw_build_messages context query chat_history with
  | inl e => raise e
  | inr messages =>
      try_except
        (call_completion ext
           {| model := model_name self;
              messages := messages;
              temperature := (7 # 10)%Q;
              max_tokens := 500 |})
        (fun e => ret ("Error generating response: " ++ message e))
  end.

End RawAgent.








Section RawService.

Variable ext : Externals.



End RawService.

(** Sample dicts *)
Module Sample3.


(** A message stored without its content. *)
Definition no_content : RawMessage :=
  {| raw_role := Some "user"; raw_content := None |}.

(** Two analyses of one session, and a report that is empty. *)
Definition second_report : string := "Patient BP 120/80.".

Definition second_report_msg : Message :=
  {| role := "system"; content := embed_report second_report |}.

Definition empty_report_msg : Message :=
  {| role := "system"; content := embed_report "" |}.

End Sample3.

(** * Properties *)

(** ** Facts about the string primitives *)

Module PyFacts.
Import Py.

Lemma startswith_refl_app (p s : string) : startswith p (p ++ s) = true.
Proof.
  induction p as [|c p IH]; simpl; [reflexivity|].
  now rewrite Ascii.eqb_refl.
Qed.

Lemma startswith_cons (a b : ascii) (p s : string) :
  startswith (String a p) (String b s) = true <-> a = b /\ startswith p s = true.
Proof.
  simpl. rewrite andb_true_iff, Ascii.eqb_eq. tauto.
Qed.

(** A match of [p] against [u ++ v] either lies inside [u] or runs into
    [v], and then [p] reads the first character of [v] at index [|u|]. *)
Lemma startswith_app_cases (p u v : string) :
  startswith p (u ++ v) = true ->
  (String.length p <= String.length u /\ startswith p u = true)
  \/ (String.length u < String.length p
      /\ String.get (String.length u) p = String.get 0 v).
Proof.
  revert p. induction u as [|c u IH]; intros p H.
  - destruct p as [|a p].
    + left. split; [simpl; lia | reflexivity].
    + right. split; [simpl; lia|].
      simpl in *. destruct v as [|b v]; [discriminate|].
      apply andb_true_iff in H. destruct H as [H _].
      apply Ascii.eqb_eq in H. now subst.
  - destruct p as [|a p].
    + left. split; [simpl; lia | reflexivity].
    + change ((String c u) ++ v) with (String c (u ++ v)) in H.
      apply startswith_cons in H. destruct H as [-> H].
      destruct (IH _ H) as [[Hl Hp]|[Hl Hg]].
      * left. split; [simpl; lia|]. apply startswith_cons. now split.
      * right. split; [simpl; lia|]. exact Hg.
Qed.

Lemma find_nat_startswith (sub s : string) :
  startswith sub s = true -> find_nat sub s = Some 0.
Proof.
  intros H. destruct s; simpl in *; now rewrite H.
Qed.

(** No occurrence at all: no suffix starts with [sub]. *)
Lemma find_nat_None (sub a1 a2 : string) :
  find_nat sub (a1 ++ a2) = None -> startswith sub a2 = false.
Proof.
  induction a1 as [|c a1 IH]; intros H.
  - simpl in H. destruct (startswith sub a2) eqn:E; [|reflexivity].
    rewrite (find_nat_startswith _ _ E) in H. discriminate.
  - change ((String c a1) ++ a2) with (String c (a1 ++ a2)) in H.
    simpl in H.
    destruct (startswith sub (String c (a1 ++ a2))); [discriminate|].
    destruct (find_nat sub (a1 ++ a2)); [discriminate|]. now apply IH.
Qed.

(** When no match starts inside [a], the search continues in [b]. *)
Lemma find_nat_skip (sub a b : string) :
  (forall a1 a2, a = a1 ++ a2 -> a2 <> "" -> startswith sub (a2 ++ b) = false) ->
  find_nat sub (a ++ b)
  = option_map (Nat.add (String.length a)) (find_nat sub b).
Proof.
  induction a as [|c a IH]; intros H.
  - simpl. destruct (find_nat sub b); reflexivity.
  - change ((String c a) ++ b) with (String c (a ++ b)).
    assert (E : startswith sub (String c (a ++ b)) = false).
    { apply (H "" (String c a)); [reflexivity | discriminate]. }
    simpl find_nat. rewrite E, IH.
    + destruct (find_nat sub b); reflexivity.
    + intros a1 a2 -> Hne. apply (H (String c a1) a2); [reflexivity | exact Hne].
Qed.

Lemma find_nat_cons_miss (sub : string) (c : ascii) (s : string) :
  startswith sub (String c s) = false ->
  find_nat sub (String c s) = option_map S (find_nat sub s).
Proof. intros H. simpl find_nat. now rewrite H. Qed.

Lemma substring_app_mid (a t rest : string) :
  substring (String.length a) (String.length t) (a ++ t ++ rest) = t.
Proof.
  induction a as [|c a IH]; simpl.
  - induction t as [|d t IHt]; simpl.
    + destruct rest; reflexivity.
    + now rewrite IHt.
  - exact IH.
Qed.

Lemma length_app (a b : string) :
  String.length (a ++ b) = String.length a + String.length b.
Proof. induction a; simpl; congruence. Qed.

Lemma take_length (n : nat) (s : string) : String.length (take n s) <= n.
Proof.
  unfold take. revert s. induction n as [|n IH]; intros [|c s]; simpl; try lia.
  specialize (IH s). lia.
Qed.

Lemma take_prefix (n : nat) (s : string) : startswith (take n s) s = true.
Proof.
  unfold take. revert s. induction n as [|n IH]; intros [|c s]; simpl;
    try reflexivity.
  now rewrite Ascii.eqb_refl, IH.
Qed.

Lemma get_has_char (n : nat) (s : string) (c : ascii) :
  String.get n s = Some c -> has_char c s = true.
Proof.
  revert n. induction s as [|d s IH]; intros n H; [destruct n; discriminate|].
  destruct n as [|n]; simpl in *.
  - injection H as ->. now rewrite Ascii.eqb_refl.
  - rewrite (IH _ H). apply orb_true_r.
Qed.

End PyFacts.

(** ** The sentinel protocol and context recovery *)

Module Recovery.
Import Py PyFacts.

Lemma END_LINE_eq : END_LINE = String nl_char END_MARK.
Proof. reflexivity. Qed.

Lemma contains_false (sub s : string) :
  contains sub s = false -> find_nat sub s = None.
Proof. unfold contains. destruct (find_nat sub s); [discriminate|reflexivity]. Qed.

(** The end marker cannot start inside a text that does not contain it,
    even when the match would run into the marker that follows. *)
Lemma end_mark_not_in_suffix (t1 a2 tail : string) :
  contains END_MARK (t1 ++ a2) = false ->
  startswith END_MARK (a2 ++ END_LINE ++ tail) = false.
Proof.
  intros H. apply contains_false, find_nat_None in H.
  destruct (startswith END_MARK (a2 ++ END_LINE ++ tail)) eqn:E; [|reflexivity].
  apply startswith_app_cases in E. destruct E as [[_ E]|[_ E]].
  - congruence.
  - rewrite END_LINE_eq in E. simpl String.get at 2 in E.
    apply get_has_char in E. vm_compute in E. discriminate.
Qed.

Lemma append_cons_assoc (t1 : string) (c : ascii) (a : string) :
  t1 ++ String c a = (t1 ++ String c "") ++ a.
Proof. induction t1; simpl; congruence. Qed.

Lemma end_line_not_in_suffix (t1 a2 tail : string) :
  a2 <> "" ->
  contains END_MARK (t1 ++ a2) = false ->
  startswith END_LINE (a2 ++ END_LINE ++ tail) = false.
Proof.
  intros Hne H. destruct a2 as [|c a2]; [contradiction|].
  rewrite append_cons_assoc in H.
  pose proof (end_mark_not_in_suffix _ _ tail H) as E.
  change (startswith END_LINE (String c a2 ++ END_LINE ++ tail))
    with (Ascii.eqb nl_char c && startswith END_MARK (a2 ++ END_LINE ++ tail)).
  rewrite E. apply andb_false_r.
Qed.

Lemma find_end_line (text tail : string) :
  contains END_MARK text = false ->
  find_nat END_LINE (START_LINE ++ text ++ END_LINE ++ tail)
  = Some (16 + String.length text).
Proof.
  intros H.
  assert (E0 : startswith END_MARK (text ++ END_LINE ++ tail) = false)
    by (apply (end_mark_not_in_suffix "" text tail H)).
  assert (E1 : find_nat END_LINE (text ++ END_LINE ++ tail)
               = Some (String.length text)).
  { rewrite find_nat_skip.
    - rewrite (find_nat_startswith END_LINE (END_LINE ++ tail)
                 (startswith_refl_app _ _)).
      simpl. f_equal. lia.
    - intros a1 a2 -> Hne. now apply (end_line_not_in_suffix a1). }
  revert E0 E1. generalize (text ++ END_LINE ++ tail) as rest.
  generalize (String.length text) as n. intros n rest E0 E1.
  change (START_LINE ++ rest)
    with ("__REPORT_TEXT__" ++ String nl_char rest).
  cbn [append].
  do 15 (rewrite find_nat_cons_miss by reflexivity).
  rewrite find_nat_cons_miss.
  - rewrite E1. reflexivity.
  - rewrite END_LINE_eq. apply andb_false_iff. now right.
Qed.

Lemma find_start_line (rest : string) :
  find_nat START_LINE (START_LINE ++ rest) = Some 0.
Proof. apply find_nat_startswith, startswith_refl_app. Qed.

Lemma contains_start_mark (rest : string) :
  contains START_MARK (START_LINE ++ rest) = true.
Proof.
  unfold contains.
  change (START_LINE ++ rest) with (START_MARK ++ String nl_char rest).
  now rewrite (find_nat_startswith _ _ (startswith_refl_app START_MARK _)).
Qed.

Lemma slice_embedded (text tail : string) :
  slice 16 (Z.of_nat (16 + String.length text))
    (START_LINE ++ text ++ END_LINE ++ tail) = text.
Proof.
  unfold slice, clamp.
  assert (L : String.length (START_LINE ++ text ++ END_LINE ++ tail)
              = 16 + (String.length text + (20 + String.length tail))).
  { rewrite !length_app. reflexivity. }
  rewrite L.
  replace (16 <? 0)%Z with false by reflexivity.
  replace (Z.of_nat (16 + String.length text) <? 0)%Z with false
    by (symmetry; apply Z.ltb_ge; lia).
  rewrite Nat2Z.id.
  replace (Nat.min _ (Z.to_nat 16)) with (String.length START_LINE)
    by (change (Z.to_nat 16) with 16; change (String.length START_LINE) with 16; lia).
  replace (Nat.min _ (16 + String.length text) - String.length START_LINE)
    with (String.length text)
    by (change (String.length START_LINE) with 16; lia).
  apply substring_app_mid.
Qed.

(** What the loop body does with a message that embeds [text]: the
    guard [end_idx > start_idx] refuses an empty text. *)
Lemma extract_embedded (text tail : string) (msg : Message) :
  contains END_MARK text = false ->
  role msg = "system" ->
  content msg = START_LINE ++ text ++ END_LINE ++ tail ->
  extract_report_text msg = if text =? "" then None else Some text.
Proof.
  intros Hend Hrole Hcontent.
  unfold extract_report_text, carries_sentinel, find, len.
  rewrite Hrole, Hcontent, contains_start_mark, find_start_line,
    (find_end_line _ _ Hend).
  change (("system" =? "system") && true) with true. cbv iota.
  change (Z.of_nat 0 + Z.of_nat (String.length START_LINE))%Z with 16%Z.
  change (16 >? 16 - 1)%Z with true. rewrite andb_true_l.
  destruct text as [|c text].
  - reflexivity.
  - replace (Z.of_nat (16 + String.length (String c text)) >? 16)%Z with true
      by (symmetry; apply Z.gtb_lt; simpl String.length; lia).
    now rewrite slice_embedded.
Qed.

Lemma extract_not_sentinel (msg : Message) :
  carries_sentinel msg = false -> extract_report_text msg = None.
Proof. unfold extract_report_text. now intros ->. Qed.

Lemma scan_report_text_skip (ctx : string) (pre rest : list Message) :
  Forall (fun m => extract_report_text m = None) pre ->
  scan_report_text ctx (pre ++ rest) = scan_report_text ctx rest.
Proof.
  induction 1 as [|m pre Hm _ IH]; simpl; [reflexivity|]. now rewrite Hm.
Qed.

Lemma scan_report_text_none (ctx : string) (h : list Message) :
  Forall (fun m => extract_report_text m = None) h ->
  scan_report_text ctx h = ctx.
Proof.
  intros H. rewrite <- (app_nil_r h). now rewrite scan_report_text_skip.
Qed.

Lemma no_sentinel_no_extract (h : list Message) :
  Forall (fun m => carries_sentinel m = false) h ->
  Forall (fun m => extract_report_text m = None) h.
Proof. apply Forall_impl. exact extract_not_sentinel. Qed.

Lemma scan_assistant_last (ctx : string) (pre post : list Message)
    (msg : Message) :
  long_assistant msg = true ->
  Forall (fun m => long_assistant m = false) post ->
  scan_assistant ctx (rev (pre ++ msg :: post)) = take 5000 (content msg).
Proof.
  intros Hm Hpost. rewrite rev_app_distr. simpl rev. rewrite <- app_assoc.
  apply Forall_rev in Hpost. induction Hpost as [|m l Hl _ IH]; simpl.
  - now rewrite Hm.
  - now rewrite Hl.
Qed.

Lemma nonempty_middle {A} (pre post : list A) (x : A) :
  nonempty (pre ++ x :: post) = true.
Proof. destruct pre; reflexivity. Qed.

Lemma endswith_suffix (p t : string) : endswith t (p ++ t) = true.
Proof.
  unfold endswith. rewrite length_app.
  replace (String.length p + String.length t - String.length t)
    with (String.length p) by lia.
  replace (p ++ t) with (p ++ t ++ "").
  - rewrite substring_app_mid, String.eqb_refl, andb_true_r.
    apply Nat.leb_le. lia.
  - f_equal. induction t; simpl; congruence.
Qed.

End Recovery.

(** C7, amended. Sentinel round trip. Let [msg] be a system-role message whose
    content is ["__REPORT_TEXT__\n" + text + "\n__END_REPORT_TEXT__"]
    (followed by anything), where [text] contains neither marker, and let
    it be the first message of the history that carries the start marker.
    Then the history scan of [get_chat_response] leaves exactly [text] as
    the context. The extraction searches the two literal markers and
    demands [end_idx > start_idx], so that an empty [text] is not
    extracted: the context then stays empty, provided no later message
    carries a report either. For a non-empty [text], [text] is what the
    index is built from. *)
Theorem sentinel_round_trip
    (text tail : string) (pre post : list Message) (msg : Message) :
  Py.contains START_MARK text = false ->
  Py.contains END_MARK text = false ->
  role msg = "system" ->
  content msg = START_LINE ++ text ++ END_LINE ++ tail ->
  Forall (fun m => carries_sentinel m = false) pre ->
  (text = "" -> Forall (fun m => carries_sentinel m = false) post) ->
  extract_report_text msg = (if text =? "" then None else Some text)
  /\ scan_report_text "" (pre ++ msg :: post) = text
  /\ (text <> "" -> context_for_index "" (pre ++ msg :: post) = text).
Proof.
  intros _ Hend Hrole Hcontent Hpre Hpost.
  pose proof (Recovery.extract_embedded text tail msg Hend Hrole Hcontent) as E.
  assert (S : scan_report_text "" (pre ++ msg :: post) = text).
  { rewrite Recovery.scan_report_text_skip
      by now apply Recovery.no_sentinel_no_extract.
    simpl. rewrite E. destruct text as [|c text]; [|reflexivity].
    apply Recovery.scan_report_text_none, Recovery.no_sentinel_no_extract.
    now apply Hpost. }
  split; [exact E|]. split; [exact S|].
  intros Hne. unfold context_for_index, recover_context.
  rewrite Recovery.nonempty_middle, S. simpl.
  destruct text as [|c text]; [contradiction|reflexivity].
Qed.

Lemma sentinel_round_trip_witness :
  scan_report_text "" [Sample.question; Sample.report_msg] = Sample.report
  /\ context_for_index "" [Sample.question; Sample.report_msg] = Sample.report.
Proof.
  destruct (sentinel_round_trip Sample.report "" [Sample.question] []
              Sample.report_msg) as [_ [S C]];
    try reflexivity.
  - repeat constructor.
  - discriminate.
  - split; [exact S | apply C; discriminate].
Defined.

(** C7 as stated fails, for any system message that embeds a text.
    With two reports in the history the scan breaks on the first one, so
    that the text the second message embeds is not recovered. And an
    empty text is not extracted: the scan goes on to a later report, and
    with no other report the index is built from the text for the empty
    context, not from the empty text. *)
Lemma sentinel_round_trip_first_report_only :
  (Py.contains START_MARK Sample3.second_report = false
   /\ Py.contains END_MARK Sample3.second_report = false
   /\ role Sample3.second_report_msg = "system"
   /\ content Sample3.second_report_msg
      = START_LINE ++ Sample3.second_report ++ END_LINE
   /\ scan_report_text "" [Sample.report_msg; Sample3.second_report_msg]
      <> Sample3.second_report
   /\ context_for_index "" [Sample.report_msg; Sample3.second_report_msg]
      <> Sample3.second_report)
  /\ (role Sample3.empty_report_msg = "system"
      /\ content Sample3.empty_report_msg = START_LINE ++ "" ++ END_LINE
      /\ extract_report_text Sample3.empty_report_msg = None
      /\ scan_report_text "" [Sample3.empty_report_msg; Sample.report_msg]
         <> ""
      /\ context_for_index "" [Sample3.empty_report_msg] <> "").
Proof.
  repeat split; try reflexivity; vm_compute; discriminate.
Qed.

(** C2, amended. When [context_text] is empty and no system message of
    the history yields a report text, the recovered context is the
    PREFIX, of at most 5000 characters ([content[:5000]]), of the content
    of the most recent assistant message that is longer than 100
    characters. *)
Theorem assistant_fallback_prefix
    (pre post : list Message) (msg : Message) :
  Forall (fun m => extract_report_text m = None) (pre ++ msg :: post) ->
  role msg = "assistant" ->
  100 < String.length (content msg) ->
  Forall (fun m => long_assistant m = false) post ->
  recover_context "" (pre ++ msg :: post) = Py.take 5000 (content msg)
  /\ String.length (recover_context "" (pre ++ msg :: post)) <= 5000
  /\ Py.startswith (recover_context "" (pre ++ msg :: post)) (content msg) = true.
Proof.
  intros Hsys Hrole Hlen Hpost.
  assert (R : recover_context "" (pre ++ msg :: post)
              = Py.take 5000 (content msg)).
  { unfold recover_context.
    rewrite Recovery.nonempty_middle, Recovery.scan_report_text_none by exact Hsys.
    cbn [Py.truthy String.eqb negb andb].
    apply Recovery.scan_assistant_last; [|exact Hpost].
    unfold long_assistant. rewrite Hrole. apply andb_true_iff. split.
    - reflexivity.
    - now apply Nat.ltb_lt. }
  rewrite R. split; [reflexivity|]. split.
  - apply PyFacts.take_length.
  - apply PyFacts.take_prefix.
Qed.

Lemma assistant_fallback_prefix_witness :
  recover_context "" [Sample.question; Sample.long_analysis]
  = Py.take 5000 (content Sample.long_analysis).
Proof.
  apply (assistant_fallback_prefix [Sample.question] [] Sample.long_analysis).
  - repeat constructor.
  - reflexivity.
  - apply Nat.ltb_lt. vm_compute. reflexivity.
  - constructor.
Defined.

(** C2 as stated fails: for an analysis of 5001 characters, the
    recovered context is not a suffix of its content. *)
Lemma assistant_fallback_not_suffix :
  Forall (fun m => extract_report_text m = None) [Sample.long_analysis]
  /\ long_assistant Sample.long_analysis = true
  /\ ~ (exists p : string,
          content Sample.long_analysis
          = p ++ recover_context "" [Sample.long_analysis]).
Proof.
  split; [repeat constructor|]. split; [vm_compute; reflexivity|].
  intros [p Hp].
  pose proof (Recovery.endswith_suffix p
                (recover_context "" [Sample.long_analysis])) as E.
  rewrite <- Hp in E. vm_compute in E. discriminate.
Qed.

(** ** The agent: contextualization, retrieval, prompt assembly *)

Module AgentFacts.

Section Facts.

Variable self : ChatAgent.
Variable ext : Externals.

(** Contextualization never raises and issues at most one completion
    call, whose answer it strips. *)
Lemma contextualize_total (query : string) (chat_history : list Message) :
  exists t cq,
    _contextualize_query self ext query chat_history = (t, inr cq)
    /\ (forall ev, In ev t -> is_ChatCompletion ev = true).
Proof.
  unfold _contextualize_query.
  destruct (Py.nonempty chat_history); simpl.
  - unfold call_completion, bind, emit, try_except.
    match goal with
    | |- context [chat_completions_create ext ?r] =>
        destruct (chat_completions_create ext r) as [e|a]
    end; simpl; eexists _, _; (split; [reflexivity|]);
      intros ev [<-|[]]; reflexivity.
  - exists [], query. split; [reflexivity | intros ev []].
Qed.

(** Retrieval never raises: one call to the retriever, with [k = 3]. *)
Lemma retrieve_total (vs : VectorStore) (cq : string) :
  exists context,
    retrieve_context ext vs cq = ([GetRelevantDocuments vs 3 cq], inr context).
Proof.
  unfold retrieve_context, call_retriever, bind, emit, try_except.
  destruct (get_relevant_documents ext vs 3 cq) as [e|docs]; simpl;
    eexists; reflexivity.
Qed.

(** [get_response] is: contextualize, retrieve, one completion call. *)
Lemma get_response_shape (query : string) (vs : VectorStore)
    (chat_history : option (list Message)) :
  exists tq cq context,
    _contextualize_query self ext query (history_of chat_history) = (tq, inr cq)
    /\ retrieve_context ext vs cq = ([GetRelevantDocuments vs 3 cq], inr context)
    /\ get_response self ext query vs chat_history
       = ((tq ++ [GetRelevantDocuments vs 3 cq;
                  ChatCompletion (answer_request self context query
                                    (history_of chat_history))])%list,
          inr (answer_of ext (answer_request self context query
                                (history_of chat_history)))).
Proof.
  destruct (contextualize_total query (history_of chat_history))
    as (tq & cq & Hq & _).
  destruct (retrieve_total vs cq) as (context & Hr).
  exists tq, cq, context. split; [exact Hq|]. split; [exact Hr|].
  unfold get_response. rewrite Hq. unfold bind at 1. rewrite Hr. unfold bind at 1.
  unfold try_except, call_completion, bind, emit, answer_of.
  destruct (chat_completions_create ext _) as [e|a]; simpl;
    rewrite ?app_nil_r; reflexivity.
Qed.

Lemma get_response_never_rebuilds (query : string) (vs : VectorStore)
    (chat_history : option (list Message)) :
  rebuilds (trace_of (get_response self ext query vs chat_history)) = false.
Proof.
  destruct (get_response_shape query vs chat_history)
    as (tq & cq & context & Hq & _ & ->).
  destruct (contextualize_total query (history_of chat_history))
    as (tq' & cq' & Hq' & Hall).
  rewrite Hq in Hq'. injection Hq' as <- <-.
  unfold rebuilds, trace_of. simpl fst. rewrite existsb_app. simpl.
  rewrite orb_false_r. apply not_true_is_false. intros H.
  apply existsb_exists in H. destruct H as (ev & Hin & Hev).
  specialize (Hall ev Hin). destruct ev; discriminate.
Qed.

End Facts.

Lemma contains_error_prefix (msg : string) :
  Py.contains "Error generating response"
    ("Error generating response: " ++ msg) = true.
Proof.
  unfold Py.contains.
  change ("Error generating response: " ++ msg)
    with ("Error generating response" ++ (": " ++ msg)).
  now rewrite (PyFacts.find_nat_startswith _ _
                 (PyFacts.startswith_refl_app "Error generating response" _)).
Qed.

End AgentFacts.

(** C4. With an empty chat history, [_contextualize_query] returns the
    query unchanged, and its trace is empty: no completion call (nor any
    other external call) is issued. *)
Theorem contextualize_empty_history
    (self : ChatAgent) (ext : Externals) (query : string) :
  value_of (_contextualize_query self ext query []) = inr query
  /\ trace_of (_contextualize_query self ext query []) = []
  /\ completions (trace_of (_contextualize_query self ext query [])) = [].
Proof. repeat split. Qed.

(** C5. For every input text, [initialize_vector_store] splits the
    text (the placeholder when the input is empty or blank) and hands
    [FAISS.from_texts] a non-empty list of chunks: the splitter's chunks,
    or the whole text as single chunk when the splitter returns none. *)
Theorem initialize_vector_store_chunks (ext : Externals) (text_content : string) :
  let text := effective_text text_content in
  let texts := index_texts ext text_content in
  trace_of (initialize_vector_store ext text_content)
    = [SplitText text; FromTexts texts]
  /\ texts <> []
  /\ ((text_content = "" \/ Py.strip text_content = "") ->
      text = "No report context available.")
  /\ ((text_content <> "" /\ Py.strip text_content <> "") ->
      text = text_content)
  /\ (split_text ext text = [] -> texts = [text])
  /\ (split_text ext text <> [] -> texts = split_text ext text).
Proof.
  cbv zeta. split.
  { unfold initialize_vector_store, call_from_texts, bind, emit.
    destruct (from_texts ext _); reflexivity. }
  split.
  { unfold index_texts. destruct (split_text ext _); simpl; discriminate. }
  split.
  { unfold effective_text, Py.truthy. intros [->| ->]; [reflexivity|].
    rewrite String.eqb_refl. now rewrite orb_true_r. }
  split.
  { unfold effective_text, Py.truthy. intros [H1 H2].
    apply String.eqb_neq in H1, H2. now rewrite H1, H2. }
  split.
  { unfold index_texts. now intros ->. }
  { unfold index_texts. destruct (split_text ext _); [contradiction|reflexivity]. }
Qed.

(** C6. If the final completion call of [get_response] raises, then
    [get_response] does not raise: it returns the string
    ["Error generating response: " + str(e)], which contains
    ["Error generating response"]. *)
Theorem completion_failure_is_returned
    (self : ChatAgent) (ext : Externals) (query : string) (vs : VectorStore)
    (chat_history : option (list Message))
    (earlier : list CompletionRequest) (req : CompletionRequest) (e : Exn) :
  completions (trace_of (get_response self ext query vs chat_history))
    = (earlier ++ [req])%list ->
  chat_completions_create ext req = inl e ->
  value_of (get_response self ext query vs chat_history)
    = inr ("Error generating response: " ++ message e)
  /\ Py.contains "Error generating response"
       ("Error generating response: " ++ message e) = true.
Proof.
  intros Hlast Hraise. split; [|apply AgentFacts.contains_error_prefix].
  destruct (AgentFacts.get_response_shape self ext query vs chat_history)
    as (tq & cq & context & _ & _ & E).
  rewrite E in Hlast |- *. unfold trace_of, value_of in *. simpl fst in Hlast.
  simpl snd. unfold completions in Hlast. rewrite flat_map_app in Hlast.
  simpl in Hlast. apply app_inj_tail in Hlast. destruct Hlast as [_ <-].
  unfold answer_of. now rewrite Hraise.
Qed.

Lemma completion_failure_is_returned_witness :
  value_of (get_response ChatAgent_init Sample.no_completion
              "What is the blood pressure?"
              {| chunks := [Sample.report] |} (Some [Sample.question]))
  = inr "Error generating response: service unavailable".
Proof.
  refine (proj1 (completion_failure_is_returned ChatAgent_init
                   Sample.no_completion "What is the blood pressure?"
                   {| chunks := [Sample.report] |} (Some [Sample.question])
                   [_] _ Sample.boom _ _)); reflexivity.
Defined.

(** C10. [get_response] with [chat_history = None] is [get_response]
    with the empty list: the query is not reformulated (retrieval is asked
    the query itself and no contextualization call is issued), and the
    one completion request carries exactly the system prompt and the user
    message. *)
Theorem get_response_None_is_empty_history
    (self : ChatAgent) (ext : Externals) (query : string) (vs : VectorStore) :
  get_response self ext query vs None = get_response self ext query vs (Some [])
  /\ _contextualize_query self ext query (history_of None) = ([], inr query)
  /\ exists context,
       retrieve_context ext vs query
         = ([GetRelevantDocuments vs 3 query], inr context)
       /\ trace_of (get_response self ext query vs None)
          = [ GetRelevantDocuments vs 3 query;
              ChatCompletion
                {| model := model_name self;
                   messages :=
                     [ {| role := "system"; content := qa_system_prompt |};
                       {| role := "user";
                          content := user_message context query |} ];
                   temperature := (7 # 10)%Q;
                   max_tokens := 500 |} ].
Proof.
  split; [reflexivity|]. split; [reflexivity|].
  destruct (AgentFacts.get_response_shape self ext query vs None)
    as (tq & cq & context & Hq & Hr & E).
  simpl in Hq. injection Hq as <- <-.
  exists context. split; [exact Hr|]. rewrite E. reflexivity.
Qed.

(** ** The service: initialization and the index cache *)

Module ServiceFacts.

Section Facts.

Variable ext : Externals.

Lemma init_keeps_index (s s1 : Session) :
  init_analysis_state ext s = inr s1 ->
  vector_store s1 = vector_store s /\ vector_store_key s1 = vector_store_key s.
Proof.
  unfold init_analysis_state.
  destruct (analysis_agent s); [|destruct (new_AnalysisAgent ext)];
    try discriminate; simpl;
    (destruct (chat_agent s);
     [|destruct (try_chat_agent ext) as [e|[ag err]]]);
    intros [= <-]; split; reflexivity.
Qed.

Lemma init_sets_agents (s s1 : Session) :
  init_analysis_state ext s = inr s1 ->
  analysis_agent s1 <> None /\ chat_agent s1 <> None.
Proof.
  unfold init_analysis_state.
  destruct (analysis_agent s) eqn:Ea; [|destruct (new_AnalysisAgent ext)];
    try discriminate; simpl;
    (destruct (chat_agent s) eqn:Ec;
     [|destruct (try_chat_agent ext) as [e|[ag err]]]);
    intros [= <-]; simpl; rewrite ?Ea, ?Ec; split; discriminate.
Qed.

(** Once both agents are in the store, initialization does nothing. *)
Lemma init_idempotent (s : Session) :
  analysis_agent s <> None -> chat_agent s <> None ->
  init_analysis_state ext s = inr s.
Proof.
  unfold init_analysis_state. intros Ha Hc.
  destruct (analysis_agent s); [|contradiction].
  destruct (chat_agent s); [reflexivity|contradiction].
Qed.

Lemma initialize_vector_store_eq (text_content : string) :
  initialize_vector_store ext text_content
  = ([SplitText (effective_text text_content);
      FromTexts (index_texts ext text_content)],
     match from_texts ext (index_texts ext text_content) with
     | Some e => inl e
     | None => inr (mkVectorStore (index_texts ext text_content))
     end).
Proof.
  unfold initialize_vector_store, call_from_texts, bind, emit.
  destruct (from_texts ext _); reflexivity.
Qed.

Lemma cache_miss_iff (s : Session) (context_text : string) :
  cache_miss s context_text = true
  <-> vector_store s = None
      \/ vector_store_key s <> Some (String.length context_text).
Proof.
  unfold cache_miss. destruct (vector_store s) as [vs|].
  - destruct (vector_store_key s) as [key|].
    + rewrite negb_true_iff, Nat.eqb_neq. split.
      * intros H. right. congruence.
      * intros [H|H]; [discriminate | congruence].
    + split; [right; discriminate | reflexivity].
  - split; [now left | reflexivity].
Qed.

Lemma rebuilds_app (t t' : list Event) :
  rebuilds (t ++ t') = rebuilds t || rebuilds t'.
Proof. apply existsb_app. Qed.

(** [respond] adds the trace of [get_response], which never builds an
    index, and leaves the store alone. *)
Lemma respond_spec (agent : ChatAgent) (query : string)
    (chat_history : list Message) (t : list Event) (s : Session) :
  session (respond ext agent query chat_history t s) = s
  /\ rebuilds (trace (respond ext agent query chat_history t s)) = rebuilds t.
Proof.
  unfold respond. destruct (vector_store s) as [vs|]; [|split; reflexivity].
  pose proof (AgentFacts.get_response_never_rebuilds agent ext query vs
                (Some chat_history)) as N.
  destruct (get_response agent ext query vs (Some chat_history)) as [t' r].
  simpl. split; [reflexivity|]. rewrite rebuilds_app.
  unfold trace_of in N. simpl in N. now rewrite N, orb_false_r.
Qed.

(** The cache step calls index construction exactly on a miss. *)
Lemma ensure_rebuilds (context_text : string) (s : Session) :
  rebuilds (fst (fst (ensure_vector_store ext context_text s)))
  = cache_miss s context_text.
Proof.
  unfold ensure_vector_store. destruct (cache_miss s context_text);
    [|reflexivity].
  rewrite !initialize_vector_store_eq.
  destruct (from_texts ext (index_texts ext context_text));
    [destruct (from_texts ext (index_texts ext _))|]; reflexivity.
Qed.

(** [get_chat_response] once the agent is known to be there. *)
Lemma get_chat_response_available (query context_text : string)
    (chat_history : list Message) (s s1 : Session) (agent : ChatAgent) :
  init_analysis_state ext s = inr s1 ->
  chat_agent s1 = Some (Some agent) ->
  get_chat_response ext query context_text chat_history s
  = match ensure_vector_store ext
            (context_for_index context_text chat_history) s1 with
    | (t, s2, Some error) =>
        {| trace := t; session := s2; value := inr error |}
    | (t, s2, None) => respond ext agent query chat_history t s2
    end.
Proof. intros Hi Ha. unfold get_chat_response. now rewrite Hi, Ha. Qed.

Lemma get_chat_response_rebuilds (query context_text : string)
    (chat_history : list Message) (s s1 : Session) (agent : ChatAgent) :
  init_analysis_state ext s = inr s1 ->
  chat_agent s1 = Some (Some agent) ->
  rebuilds (trace (get_chat_response ext query context_text chat_history s))
  = cache_miss s1 (context_for_index context_text chat_history).
Proof.
  intros Hi Ha.
  rewrite (get_chat_response_available _ _ _ _ _ _ Hi Ha).
  rewrite <- ensure_rebuilds.
  destruct (ensure_vector_store ext _ s1) as [[t s2] [error|]]; simpl.
  - reflexivity.
  - apply respond_spec.
Qed.

End Facts.

Lemma context_for_index_nonempty (context_text : string)
    (chat_history : list Message) :
  String.length (context_for_index context_text chat_history) <> 0.
Proof.
  unfold context_for_index.
  destruct (recover_context context_text chat_history); simpl; discriminate.
Qed.

End ServiceFacts.

(** C8. If, once [init_analysis_state] has run, the [chat_agent] slot
    of the session holds [None], then [get_chat_response] returns, for
    every query, context and history, the string ["Error: "] followed by
    the stored initialization error (or by the canned default when none
    is stored); it raises nothing, calls no external service and leaves
    the vector store and its key as they were. *)
Theorem chat_agent_None_gives_error
    (ext : Externals) (query context_text : string)
    (chat_history : list Message) (s s1 : Session) :
  init_analysis_state ext s = inr s1 ->
  chat_agent s1 = Some None ->
  let error_msg :=
    match chat_agent_error s1 with
    | None => default_error
    | Some v => format_opt v
    end in
  let o := get_chat_response ext query context_text chat_history s in
  value o = inr ("Error: " ++ error_msg)
  /\ Py.startswith "Error: " ("Error: " ++ error_msg) = true
  /\ trace o = []
  /\ vector_store (session o) = vector_store s
  /\ vector_store_key (session o) = vector_store_key s.
Proof.
  intros Hi Ha. cbv zeta. unfold get_chat_response. rewrite Hi, Ha. simpl.
  destruct (ServiceFacts.init_keeps_index ext s s1 Hi) as [Hv Hk].
  repeat split; assumption.
Qed.

Lemma chat_agent_None_gives_error_witness :
  value (get_chat_response Sample.no_api_key "What is the blood pressure?"
           Sample.report [Sample.question] empty_session)
  = inr ("Error: " ++ "GROQ_API_KEY not found in secrets. Please add it to .streamlit/secrets.toml").
Proof.
  exact (proj1 (chat_agent_None_gives_error Sample.no_api_key
                  "What is the blood pressure?" Sample.report
                  [Sample.question] empty_session
                  (set_chat_agent
                     {| analysis_agent := Some mkAnalysisAgent;
                        chat_agent := None; chat_agent_error := None;
                        vector_store := None; vector_store_key := None |}
                     None
                     (Some "GROQ_API_KEY not found in secrets. Please add it to .streamlit/secrets.toml"))
                  eq_refl eq_refl)).
Defined.

(** C3, amended. When the chat agent is available, a call of
    [get_chat_response] calls index construction if and only if no vector
    store is in the session or the cached key differs from the length of
    the current context text. And if index construction did not fail in a
    call, then the next call performs no rebuild whenever its context
    text has the same length, whatever its content. *)
Theorem index_rebuilt_iff_length_differs
    (ext1 ext2 : Externals) (q1 c1 q2 c2 : string) (h1 h2 : list Message)
    (s s1 : Session) (agent : ChatAgent) :
  init_analysis_state ext1 s = inr s1 ->
  chat_agent s1 = Some (Some agent) ->
  let ctx1 := context_for_index c1 h1 in
  let ctx2 := context_for_index c2 h2 in
  let o1 := get_chat_response ext1 q1 c1 h1 s in
  (rebuilds (trace o1) = true
   <-> vector_store s = None
       \/ vector_store_key s <> Some (String.length ctx1))
  /\ ((rebuilds (trace o1) = true ->
       from_texts ext1 (index_texts ext1 ctx1) = None) ->
      String.length ctx1 = String.length ctx2 ->
      rebuilds (trace (get_chat_response ext2 q2 c2 h2 (session o1))) = false).
Proof.
  intros Hi Ha. cbv zeta.
  destruct (ServiceFacts.init_keeps_index ext1 s s1 Hi) as [Hv Hk].
  destruct (ServiceFacts.init_sets_agents ext1 s s1 Hi) as [Haa _].
  rewrite (ServiceFacts.get_chat_response_rebuilds ext1 _ _ _ _ _ _ Hi Ha).
  split.
  { rewrite ServiceFacts.cache_miss_iff. now rewrite Hv, Hk. }
  intros Hok Hlen.
  rewrite (ServiceFacts.get_chat_response_available ext1 _ _ _ _ _ _ Hi Ha).
  set (ctx1 := context_for_index c1 h1) in *.
  assert (S : exists s2,
             session (match ensure_vector_store ext1 ctx1 s1 with
                      | (t, s2, Some error) =>
                          {| trace := t; session := s2; value := inr error |}
                      | (t, s2, None) => respond ext1 agent q1 h1 t s2
                      end) = s2
             /\ analysis_agent s2 = analysis_agent s1
             /\ chat_agent s2 = chat_agent s1
             /\ cache_miss s2 ctx1 = false).
  { unfold ensure_vector_store.
    destruct (cache_miss s1 ctx1) eqn:M.
    - rewrite ServiceFacts.initialize_vector_store_eq, (Hok eq_refl).
      eexists. split; [apply ServiceFacts.respond_spec|].
      repeat split. unfold cache_miss. simpl. now rewrite Nat.eqb_refl.
    - eexists. split; [apply ServiceFacts.respond_spec|]. now repeat split. }
  destruct S as (s2 & -> & Hana & Hchat & Hhit).
  rewrite (ServiceFacts.get_chat_response_rebuilds ext2 _ _ _ s2 s2 agent).
  - unfold cache_miss in *. rewrite <- Hlen. exact Hhit.
  - apply ServiceFacts.init_idempotent; congruence.
  - congruence.
Qed.

Lemma index_rebuilt_iff_length_differs_witness :
  rebuilds
    (trace (get_chat_response Sample.services "And the pulse?"
              "Patient BP 150/95." []
              (session (get_chat_response Sample.services
                          "What is the blood pressure?" "Patient BP 140/90."
                          [] empty_session)))) = false.
Proof.
  refine (proj2 (index_rebuilt_iff_length_differs Sample.services
                   Sample.services "What is the blood pressure?"
                   "Patient BP 140/90." "And the pulse?" "Patient BP 150/95."
                   [] [] empty_session _ ChatAgent_init _ _) _ _);
    reflexivity.
Defined.

(** C3 as stated fails: the first call's index construction fails, the
    fallback stores the key 0, and the second call, whose context text
    has the same length, rebuilds. *)
Lemma same_length_rebuild_after_failure :
  let o1 := get_chat_response Sample.flaky_embedding
              "What is the blood pressure?" "Patient BP 140/90." []
              empty_session in
  let o2 := get_chat_response Sample.services "And the pulse?"
              "Patient BP 150/95." [] (session o1) in
  String.length (context_for_index "Patient BP 140/90." [])
  = String.length (context_for_index "Patient BP 150/95." [])
  /\ chat_agent (session o1) = Some (Some ChatAgent_init)
  /\ vector_store_key (session o1) = Some 0
  /\ rebuilds (trace o2) = true.
Proof. vm_compute. repeat split. Qed.

(** C9. When index construction fails and the fallback on the
    placeholder succeeds, the cached key is 0, not the length (28) of the
    placeholder the index was built from; so the next call rebuilds the
    index, whatever its context text: the text an index is built from is
    never empty, hence never of length 0. *)
Theorem fallback_key_is_zero
    (ext : Externals) (query context_text : string)
    (chat_history : list Message) (s s1 : Session) (agent : ChatAgent)
    (e : Exn) :
  init_analysis_state ext s = inr s1 ->
  chat_agent s1 = Some (Some agent) ->
  (vector_store s1 = None
   \/ vector_store_key s1
      <> Some (String.length (context_for_index context_text chat_history))) ->
  from_texts ext (index_texts ext (context_for_index context_text chat_history))
    = Some e ->
  from_texts ext (index_texts ext PLACEHOLDER) = None ->
  let s' := session (get_chat_response ext query context_text chat_history s) in
  vector_store s' = Some (mkVectorStore (index_texts ext PLACEHOLDER))
  /\ vector_store_key s' = Some 0
  /\ String.length PLACEHOLDER = 28
  /\ forall ext2 query2 context_text2 chat_history2,
       rebuilds (trace (get_chat_response ext2 query2 context_text2
                          chat_history2 s')) = true.
Proof.
  intros Hi Ha Hmiss Hfail Hfallback. cbv zeta.
  destruct (ServiceFacts.init_sets_agents ext s s1 Hi) as [Haa _].
  rewrite (ServiceFacts.get_chat_response_available ext _ _ _ _ _ _ Hi Ha).
  apply ServiceFacts.cache_miss_iff in Hmiss.
  unfold ensure_vector_store. rewrite Hmiss.
  rewrite !ServiceFacts.initialize_vector_store_eq, Hfail.
  change (index_texts ext "No report context available.")
    with (index_texts ext PLACEHOLDER).
  rewrite Hfallback.
  match goal with
  | |- context [respond ext agent query chat_history ?t ?s2] =>
      destruct (ServiceFacts.respond_spec ext agent query chat_history t s2)
        as [-> _]
  end.
  split; [reflexivity|]. split; [reflexivity|]. split; [reflexivity|].
  intros ext2 query2 context_text2 chat_history2.
  match goal with
  | |- context [get_chat_response ext2 _ _ _ ?s2] =>
      rewrite (ServiceFacts.get_chat_response_rebuilds ext2 query2
                 context_text2 chat_history2 s2 s2 agent)
  end.
  - unfold cache_miss. simpl.
    pose proof (ServiceFacts.context_for_index_nonempty context_text2
                  chat_history2) as N.
    destruct (String.length (context_for_index context_text2 chat_history2));
      [contradiction | reflexivity].
  - apply ServiceFacts.init_idempotent; simpl; congruence.
  - simpl. exact Ha.
Qed.

Lemma fallback_key_is_zero_witness :
  vector_store_key
    (session (get_chat_response Sample.flaky_embedding
                "What is the blood pressure?" Sample.report [Sample.question]
                empty_session)) = Some 0.
Proof.
  refine (proj1 (proj2 (fallback_key_is_zero Sample.flaky_embedding
                          "What is the blood pressure?" Sample.report
                          [Sample.question] empty_session _ ChatAgent_init
                          Sample.boom _ _ _ _ _)));
    try reflexivity.
  left. reflexivity.
Defined.

(** ** The placeholder and the prompt *)

Module Prompt.

Lemma retrieve_docs
    (ext : Externals) (vs : VectorStore) (cq : string) (docs : list string) :
  get_relevant_documents ext vs 3 cq = inr docs ->
  retrieve_context ext vs cq
  = ([GetRelevantDocuments vs 3 cq],
     inr (if Py.strip (Py.join (Py.nl ++ Py.nl) docs) =? PLACEHOLDER
          then "" else Py.join (Py.nl ++ Py.nl) docs)).
Proof.
  intros Hdocs.
  unfold retrieve_context, call_retriever, bind, emit, try_except.
  rewrite Hdocs. reflexivity.
Qed.

(** When the retrieved chunks, joined and stripped, are the sentinel
    ["No report context available."], the context becomes empty and the
    user message is the history-only one. *)
Lemma sentinel_context_history_only
    (ext : Externals) (vs : VectorStore) (cq query : string)
    (docs : list string) :
  get_relevant_documents ext vs 3 cq = inr docs ->
  Py.strip (Py.join (Py.nl ++ Py.nl) docs) = PLACEHOLDER ->
  retrieve_context ext vs cq = ([GetRelevantDocuments vs 3 cq], inr "")
  /\ user_message "" query = history_only query.
Proof.
  intros Hdocs Hstrip. split; [|reflexivity].
  rewrite (retrieve_docs _ _ _ _ Hdocs), Hstrip. reflexivity.
Qed.

(** The user message is the history-only one whenever the context,
    stripped, is the sentinel. *)
Lemma user_message_sentinel (context query : string) :
  Py.strip context = PLACEHOLDER ->
  user_message context query = history_only query.
Proof.
  intros H. unfold user_message. rewrite H.
  change (negb (PLACEHOLDER =? "No report context available.")) with false.
  now rewrite andb_false_r.
Qed.

End Prompt.

(** C1. What the code does when [get_chat_response] is called with no
    context and no history, so that it builds the vector store from its
    own text for the empty context: that text is not the sentinel
    ["No report context available."] that [get_response] looks for.
    With a splitter that keeps the short text whole and a retriever that
    returns the one chunk of the store, the retrieved context is the
    text itself, and the user message of the completion request has the
    ["Context:"] section instead of the history-only phrasing. *)
Theorem empty_context_text_is_sent_as_context
    (ext : Externals) (query : string) (s s1 : Session) (agent : ChatAgent) :
  init_analysis_state ext s = inr s1 ->
  chat_agent s1 = Some (Some agent) ->
  vector_store s1 = None ->
  split_text ext EMPTY_CONTEXT = [EMPTY_CONTEXT] ->
  from_texts ext [EMPTY_CONTEXT] = None ->
  get_relevant_documents ext (mkVectorStore [EMPTY_CONTEXT]) 3 query
    = inr [EMPTY_CONTEXT] ->
  let o := get_chat_response ext query "" [] s in
  vector_store (session o) = Some (mkVectorStore [EMPTY_CONTEXT])
  /\ completions (trace o)
     = [ {| model := model_name agent;
            messages :=
              [ {| role := "system"; content := qa_system_prompt |};
                {| role := "user";
                   content := with_context EMPTY_CONTEXT query |} ];
            temperature := (7 # 10)%Q;
            max_tokens := 500 |} ]
  /\ with_context EMPTY_CONTEXT query <> history_only query.
Proof.
  intros Hi Ha Hv Hsplit Hbuild Hdocs. cbv zeta.
  rewrite (ServiceFacts.get_chat_response_available ext _ _ _ _ _ _ Hi Ha).
  change (context_for_index "" []) with EMPTY_CONTEXT.
  unfold ensure_vector_store, cache_miss. rewrite Hv.
  rewrite ServiceFacts.initialize_vector_store_eq.
  assert (T : index_texts ext EMPTY_CONTEXT = [EMPTY_CONTEXT]).
  { unfold index_texts.
    change (effective_text EMPTY_CONTEXT) with EMPTY_CONTEXT.
    now rewrite Hsplit. }
  rewrite T, Hbuild. unfold respond.
  cbn [vector_store set_vector_store].
  destruct (AgentFacts.get_response_shape agent ext query
              (mkVectorStore [EMPTY_CONTEXT]) (Some []))
    as (tq & cq & context & Hq & Hr & E).
  cbn in Hq. injection Hq as <- <-.
  rewrite (Prompt.retrieve_docs _ _ _ _ Hdocs) in Hr.
  injection Hr as <-. rewrite E. cbn [session trace].
  split; [reflexivity|]. split; [reflexivity|].
  discriminate.
Qed.

Lemma empty_context_text_is_sent_as_context_witness :
  map (fun req => map content (messages req))
    (completions
       (trace (get_chat_response Sample.services "What is the blood pressure?"
                 "" [] empty_session)))
  = [ [ qa_system_prompt;
        with_context EMPTY_CONTEXT "What is the blood pressure?" ] ].
Proof.
  rewrite (proj1 (proj2 (empty_context_text_is_sent_as_context Sample.services
                           "What is the blood pressure?" empty_session
                           {| analysis_agent := Some mkAnalysisAgent;
                              chat_agent := Some (Some ChatAgent_init);
                              chat_agent_error := Some None;
                              vector_store := None;
                              vector_store_key := None |}
                           ChatAgent_init eq_refl eq_refl eq_refl eq_refl
                           eq_refl eq_refl))).
  reflexivity.
Defined.

(** [handle_chat_input] of [main.py] recovers the report text by the
    same scan when [current_report_text] is not in the session. *)
Lemma handle_chat_input_round_trip
    (text tail : string) (pre post : list Message) (msg : Message) :
  text <> "" ->
  Py.contains END_MARK text = false ->
  role msg = "system" ->
  content msg = START_LINE ++ text ++ END_LINE ++ tail ->
  Forall (fun m => carries_sentinel m = false) pre ->
  handle_chat_input_context "" (pre ++ msg :: post) = text.
Proof.
  intros Hne Hend Hrole Hcontent Hpre. unfold handle_chat_input_context.
  rewrite Recovery.nonempty_middle. simpl.
  rewrite Recovery.scan_report_text_skip
    by now apply Recovery.no_sentinel_no_extract.
  simpl. rewrite (Recovery.extract_embedded text tail msg Hend Hrole Hcontent).
  destruct text; [contradiction | reflexivity].
Qed.

(** * Further properties of the code *)

(** ** The agent *)

Module AgentMore.

Lemma last_n_app {A} (n : nat) (old recent : list A) :
  n <= List.length recent ->
  Py.last_n n (old ++ recent) = Py.last_n n recent.
Proof.
  intros H. unfold Py.last_n. rewrite length_app, skipn_app.
  rewrite skipn_all2 by lia. simpl. f_equal. lia.
Qed.

Lemma last_n_length {A} (n : nat) (l : list A) :
  List.length (Py.last_n n l) = Nat.min n (List.length l).
Proof. unfold Py.last_n. rewrite length_skipn. lia. Qed.

Lemma format_chat_history_id (h : list Message) : _format_chat_history h = h.
Proof.
  unfold _format_chat_history. induction h as [|[r c] h IH]; simpl;
    [reflexivity | now rewrite IH].
Qed.

Lemma nonempty_app_r {A} (old recent : list A) :
  recent <> [] -> Py.nonempty (old ++ recent) = true.
Proof. destruct old, recent; try reflexivity. contradiction. Qed.

Lemma nonempty_true {A} (l : list A) : l <> [] -> Py.nonempty l = true.
Proof. destruct l; [contradiction | reflexivity]. Qed.

Section Facts.

Variable self : ChatAgent.
Variable ext : Externals.

(** [_contextualize_query] in closed form. *)
Lemma contextualize_eq (query : string) (chat_history : list Message) :
  _contextualize_query self ext query chat_history
  = if Py.nonempty chat_history
    then ([ChatCompletion (contextualize_request self query chat_history)],
          inr (match chat_completions_create ext
                       (contextualize_request self query chat_history) with
               | inl _ => query
               | inr response => Py.strip response
               end))
    else ([], inr query).
Proof.
  unfold _contextualize_query. destruct (Py.nonempty chat_history);
    [|reflexivity].
  unfold call_completion, bind, emit, try_except, contextualize_request.
  simpl. destruct (chat_completions_create ext _); reflexivity.
Qed.

(** [get_response] from what its first two steps gave. *)
Lemma get_response_with (query : string) (vs : VectorStore)
    (chat_history : option (list Message))
    (tq tr : list Event) (cq context : string) :
  _contextualize_query self ext query (history_of chat_history) = (tq, inr cq) ->
  retrieve_context ext vs cq = (tr, inr context) ->
  get_response self ext query vs chat_history
  = ((tq ++ [GetRelevantDocuments vs 3 cq;
             ChatCompletion (answer_request self context query
                               (history_of chat_history))])%list,
     inr (answer_of ext (answer_request self context query
                           (history_of chat_history)))).
Proof.
  intros Hq Hr.
  destruct (AgentFacts.get_response_shape self ext query vs chat_history)
    as (tq' & cq' & context' & Hq' & Hr' & E).
  rewrite Hq in Hq'. injection Hq' as <- <-.
  rewrite Hr in Hr'. injection Hr' as _ <-. exact E.
Qed.

Lemma retrieve_failure (vs : VectorStore) (cq : string) (e : Exn) :
  get_relevant_documents ext vs 3 cq = inl e ->
  retrieve_context ext vs cq = ([GetRelevantDocuments vs 3 cq], inr "").
Proof.
  intros H. unfold retrieve_context, call_retriever, bind, emit, try_except.
  rewrite H. reflexivity.
Qed.

Lemma contextualize_app (query : string) (old recent : list Message) :
  4 <= List.length recent ->
  _contextualize_query self ext query (old ++ recent)
  = _contextualize_query self ext query recent.
Proof.
  intros H. rewrite !contextualize_eq.
  assert (Hne : recent <> [])
    by (destruct recent; [simpl in H; lia | discriminate]).
  rewrite (nonempty_app_r old recent Hne), (nonempty_true recent Hne).
  assert (R : contextualize_request self query (old ++ recent)
              = contextualize_request self query recent).
  { unfold contextualize_request, contextualize_prompt.
    now rewrite (last_n_app 4 old recent H). }
  now rewrite R.
Qed.

Lemma build_messages_eq (context query : string)
    (chat_history : list Message) :
  build_messages context query chat_history
  = ({| role := "system"; content := qa_system_prompt |}
     :: Py.last_n 6 chat_history
     ++ [ {| role := "user"; content := user_message context query |} ])%list.
Proof.
  unfold build_messages. destruct chat_history as [|m h]; [reflexivity|].
  cbn [Py.nonempty]. now rewrite format_chat_history_id.
Qed.

Lemma get_response_observed (query : string) (vs : VectorStore)
    (chat_history : option (list Message)) :
  exists answer cq,
    value_of (get_response self ext query vs chat_history) = inr answer
    /\ retrievals (trace_of (get_response self ext query vs chat_history))
       = [(vs, 3, cq)]
    /\ index_builds (trace_of (get_response self ext query vs chat_history))
       = []
    /\ List.length
         (completions (trace_of (get_response self ext query vs chat_history)))
       = (if Py.nonempty (history_of chat_history) then 2 else 1)
    /\ (history_of chat_history = [] -> cq = query).
Proof.
  destruct (AgentFacts.get_response_shape self ext query vs chat_history)
    as (tq & cq & context & Hq & _ & E).
  rewrite E. unfold value_of, trace_of. cbn [fst snd].
  rewrite contextualize_eq in Hq.
  eexists _, cq. split; [reflexivity|].
  destruct (Py.nonempty (history_of chat_history)) eqn:N;
    injection Hq as <- Hcq; cbn; repeat split.
  - intros Hnil. rewrite Hnil in N. discriminate.
  - intros _. now symmetry.
Qed.

End Facts.

Lemma strip_nonempty (s : string) : Py.strip s <> "" -> s <> "".
Proof. intros H ->. now apply H. Qed.

End AgentMore.

(** X1. With a non-empty history, [_contextualize_query] issues exactly
    one completion request (temperature 0.1, at most 200 tokens); if that
    call raises, the query comes back unchanged and nothing is raised; if
    it answers, the answer comes back stripped. *)
Theorem contextualize_outcome
    (self : ChatAgent) (ext : Externals) (query : string)
    (chat_history : list Message) :
  chat_history <> [] ->
  let req := contextualize_request self query chat_history in
  trace_of (_contextualize_query self ext query chat_history)
    = [ChatCompletion req]
  /\ temperature req = (1 # 10)%Q /\ max_tokens req = 200
  /\ (forall e, chat_completions_create ext req = inl e ->
      value_of (_contextualize_query self ext query chat_history) = inr query)
  /\ (forall response, chat_completions_create ext req = inr response ->
      value_of (_contextualize_query self ext query chat_history)
      = inr (Py.strip response)).
Proof.
  intros Hne. cbv zeta. rewrite AgentMore.contextualize_eq.
  rewrite (AgentMore.nonempty_true _ Hne). unfold trace_of, value_of. simpl fst.
  simpl snd. repeat split; intros x Hx; now rewrite Hx.
Qed.

Lemma contextualize_outcome_witness :
  value_of (_contextualize_query ChatAgent_init Sample.no_completion
              "And the pulse?" [Sample.question])
  = inr "And the pulse?"
  /\ value_of (_contextualize_query ChatAgent_init Sample2.padded_completion
                 "And the pulse?" [Sample.question])
     = inr "What is the pressure?".
Proof.
  split.
  - apply (proj1 (proj2 (proj2 (proj2
             (contextualize_outcome ChatAgent_init Sample.no_completion
                "And the pulse?" [Sample.question] ltac:(discriminate)))))
             Sample.boom).
    reflexivity.
  - apply (proj2 (proj2 (proj2 (proj2
             (contextualize_outcome ChatAgent_init Sample2.padded_completion
                "And the pulse?" [Sample.question] ltac:(discriminate)))))
             "  What is the pressure?  ").
    reflexivity.
Defined.

(** X2. [_contextualize_query] looks at the last four messages only:
    whatever precedes them changes neither the request nor the result. *)
Theorem contextualize_last_four
    (self : ChatAgent) (ext : Externals) (query : string)
    (old recent : list Message) :
  4 <= List.length recent ->
  _contextualize_query self ext query (old ++ recent)
  = _contextualize_query self ext query recent.
Proof. apply AgentMore.contextualize_app. Qed.

Lemma contextualize_last_four_witness :
  _contextualize_query ChatAgent_init Sample.services "And the pulse?"
    Sample2.long_history
  = _contextualize_query ChatAgent_init Sample.services "And the pulse?"
      [Sample2.answer; Sample.question; Sample2.answer; Sample.question;
       Sample2.answer].
Proof.
  apply (contextualize_last_four ChatAgent_init Sample.services
           "And the pulse?" [Sample.report_msg; Sample.question]
           [Sample2.answer; Sample.question; Sample2.answer; Sample.question;
            Sample2.answer]).
  simpl. lia.
Defined.

(** X3. The message sequence of the final request is the system prompt,
    then the last six messages of the history in their order (all of
    them when there are fewer), then the user message: [2 + min(6, n)]
    messages for a history of [n]. *)
Theorem build_messages_shape (context query : string)
    (chat_history : list Message) :
  build_messages context query chat_history
  = ({| role := "system"; content := qa_system_prompt |}
     :: Py.last_n 6 chat_history
     ++ [ {| role := "user"; content := user_message context query |} ])%list
  /\ List.length (build_messages context query chat_history)
     = 2 + Nat.min 6 (List.length chat_history).
Proof.
  pose proof (AgentMore.build_messages_eq context query chat_history) as E.
  split; [exact E|]. rewrite E. cbn [List.length].
  rewrite length_app, AgentMore.last_n_length. simpl. lia.
Qed.

(** X4. [get_response] depends on the last six messages of the history
    only: the same requests are sent and the same answer is returned
    whatever precedes them. *)
Theorem get_response_last_six
    (self : ChatAgent) (ext : Externals) (query : string) (vs : VectorStore)
    (old recent : list Message) :
  6 <= List.length recent ->
  get_response self ext query vs (Some (old ++ recent)%list)
  = get_response self ext query vs (Some recent).
Proof.
  intros H.
  destruct (AgentFacts.contextualize_total self ext query recent)
    as (tq & cq & Hq & _).
  destruct (AgentFacts.retrieve_total ext vs cq) as (context & Hr).
  assert (R : answer_request self context query (old ++ recent)
              = answer_request self context query recent).
  { unfold answer_request. f_equal. rewrite !AgentMore.build_messages_eq.
    now rewrite (AgentMore.last_n_app 6 old recent H). }
  rewrite (AgentMore.get_response_with self ext query vs
             (Some (old ++ recent)%list) tq
             [GetRelevantDocuments vs 3 cq] cq context);
    [| cbn [history_of]; rewrite AgentMore.contextualize_app by lia; exact Hq
     | exact Hr].
  rewrite (AgentMore.get_response_with self ext query vs (Some recent)
             tq [GetRelevantDocuments vs 3 cq] cq context Hq Hr).
  cbn [history_of]. now rewrite R.
Qed.

Lemma get_response_last_six_witness :
  get_response ChatAgent_init Sample.services "And the pulse?"
    {| chunks := [Sample.report] |} (Some Sample2.long_history)
  = get_response ChatAgent_init Sample.services "And the pulse?"
      {| chunks := [Sample.report] |}
      (Some [Sample.question; Sample2.answer; Sample.question; Sample2.answer;
             Sample.question; Sample2.answer]).
Proof.
  apply (get_response_last_six ChatAgent_init Sample.services "And the pulse?"
           {| chunks := [Sample.report] |} [Sample.report_msg]
           [Sample.question; Sample2.answer; Sample.question; Sample2.answer;
            Sample.question; Sample2.answer]).
  simpl. lia.
Defined.

(** X6. If retrieval raises, [get_response] carries on without
    context: the user message of the final request is the history-only
    one, and the completion's answer is returned. *)
Theorem retrieval_failure_degrades
    (self : ChatAgent) (ext : Externals) (query : string) (vs : VectorStore)
    (chat_history : option (list Message))
    (tq : list Event) (cq : string) (e : Exn) :
  _contextualize_query self ext query (history_of chat_history) = (tq, inr cq) ->
  get_relevant_documents ext vs 3 cq = inl e ->
  let req := answer_request self "" query (history_of chat_history) in
  get_response self ext query vs chat_history
  = ((tq ++ [GetRelevantDocuments vs 3 cq; ChatCompletion req])%list,
     inr (answer_of ext req))
  /\ List.last (messages req) {| role := ""; content := "" |}
     = {| role := "user"; content := history_only query |}.
Proof.
  intros Hq He. cbv zeta. split.
  - apply (AgentMore.get_response_with self ext query vs chat_history tq
             [GetRelevantDocuments vs 3 cq] cq "" Hq
             (AgentMore.retrieve_failure ext vs cq e He)).
  - unfold answer_request. cbn [messages].
    rewrite AgentMore.build_messages_eq.
    change ({| role := "system"; content := qa_system_prompt |}
            :: Py.last_n 6 (history_of chat_history) ++
               [{| role := "user"; content := user_message "" query |}])%list
      with (({| role := "system"; content := qa_system_prompt |}
             :: Py.last_n 6 (history_of chat_history)) ++
            [{| role := "user"; content := user_message "" query |}])%list.
    now rewrite last_last.
Qed.

Lemma retrieval_failure_degrades_witness :
  get_response ChatAgent_init Sample2.no_retrieval "What is the blood pressure?"
    {| chunks := [Sample.report] |} None
  = ([ GetRelevantDocuments {| chunks := [Sample.report] |} 3
         "What is the blood pressure?";
       ChatCompletion (answer_request ChatAgent_init ""
                         "What is the blood pressure?" []) ],
     inr "The blood pressure is 140/90.").
Proof.
  exact (proj1 (retrieval_failure_degrades ChatAgent_init Sample2.no_retrieval
                  "What is the blood pressure?" {| chunks := [Sample.report] |}
                  None [] "What is the blood pressure?" Sample.boom
                  eq_refl eq_refl)).
Defined.

(** X7. When the retrieved chunks, joined by blank lines and stripped,
    are the sentinel ["No report context available."], [get_response]
    sends the history-only user message: the request is the one for the
    empty context. *)
Theorem sentinel_context_is_dropped
    (self : ChatAgent) (ext : Externals) (query : string) (vs : VectorStore)
    (chat_history : option (list Message))
    (tq : list Event) (cq : string) (docs : list string) :
  _contextualize_query self ext query (history_of chat_history) = (tq, inr cq) ->
  get_relevant_documents ext vs 3 cq = inr docs ->
  Py.strip (Py.join (Py.nl ++ Py.nl) docs) = PLACEHOLDER ->
  let req := answer_request self "" query (history_of chat_history) in
  get_response self ext query vs chat_history
  = ((tq ++ [GetRelevantDocuments vs 3 cq; ChatCompletion req])%list,
     inr (answer_of ext req))
  /\ user_message "" query = history_only query.
Proof.
  intros Hq Hdocs Hstrip. cbv zeta. split; [|reflexivity].
  apply (AgentMore.get_response_with self ext query vs chat_history tq
           [GetRelevantDocuments vs 3 cq] cq "" Hq).
  exact (proj1 (Prompt.sentinel_context_history_only ext vs cq query docs
                  Hdocs Hstrip)).
Qed.

Lemma sentinel_context_is_dropped_witness :
  completions
    (trace_of (get_response ChatAgent_init Sample.services
                 "What is the blood pressure?"
                 {| chunks := [" No report context available. "] |} None))
  = [answer_request ChatAgent_init "" "What is the blood pressure?" []].
Proof.
  rewrite (proj1 (sentinel_context_is_dropped ChatAgent_init Sample.services
                    "What is the blood pressure?"
                    {| chunks := [" No report context available. "] |} None
                    [] "What is the blood pressure?"
                    [" No report context available. "]
                    eq_refl eq_refl eq_refl)).
  reflexivity.
Defined.

(** X8. The two phrasings of the user message: a context that is empty
    or blank, or that is the sentinel once stripped, gives the
    history-only message; any other context is quoted as it is, not
    stripped, under ["Context:"]. *)
Theorem user_message_cases (context query : string) :
  (Py.strip context = "" \/ Py.strip context = PLACEHOLDER ->
   user_message context query = history_only query)
  /\ (Py.strip context <> "" -> Py.strip context <> PLACEHOLDER ->
      user_message context query = with_context context query).
Proof.
  split.
  - intros [H|H]; [|now apply Prompt.user_message_sentinel].
    unfold user_message. rewrite H. cbn [Py.truthy String.eqb negb].
    now rewrite andb_false_r.
  - intros H1 H2. unfold user_message, Py.truthy.
    apply AgentMore.strip_nonempty in H1 as H0.
    apply String.eqb_neq in H0, H1, H2.
    change ("No report context available.") with PLACEHOLDER.
    now rewrite H0, H1, H2.
Qed.

(** ** The sentinel protocol, read backwards *)

Module RecoveryMore.
Import Py PyFacts.

Lemma append_assoc (a b c : string) : (a ++ b) ++ c = a ++ b ++ c.
Proof. induction a; simpl; congruence. Qed.

Lemma startswith_split (p s : string) :
  startswith p s = true -> exists b, s = p ++ b.
Proof.
  revert s. induction p as [|a p IH]; intros s H.
  - now exists s.
  - destruct s as [|c s]; [discriminate|].
    apply startswith_cons in H. destruct H as [-> H].
    destruct (IH _ H) as [b ->]. now exists b.
Qed.

(** A successful search splits the string at the index it returns. *)
Lemma find_nat_Some (sub s : string) (n : nat) :
  find_nat sub s = Some n ->
  exists a b, s = a ++ sub ++ b /\ String.length a = n.
Proof.
  revert n. induction s as [|c s IH]; intros n H.
  - simpl in H. destruct (startswith sub "") eqn:E; [|discriminate].
    injection H as <-. destruct (startswith_split _ _ E) as [b Hb].
    now exists "", b.
  - simpl in H. destruct (startswith sub (String c s)) eqn:E.
    + injection H as <-. destruct (startswith_split _ _ E) as [b Hb].
      now exists "", b.
    + destruct (find_nat sub s) as [m|] eqn:F; [|discriminate].
      injection H as <-. destruct (IH m eq_refl) as (a & b & -> & <-).
      now exists (String c a), b.
Qed.

(** Two ways of cutting one string: the shorter head is a head of the
    longer one. *)
Lemma append_split (x y a z : string) :
  x ++ y = a ++ z -> String.length x <= String.length a ->
  exists m, a = x ++ m /\ y = m ++ z.
Proof.
  revert a. induction x as [|c x IH]; intros a H L.
  - now exists a.
  - destruct a as [|d a]; [simpl in L; lia|].
    simpl in H. injection H as -> H.
    destruct (IH a H ltac:(simpl in L; lia)) as (m & -> & ->).
    now exists m.
Qed.

Lemma slice_nat (i j : nat) (s : string) :
  i <= j -> j <= String.length s ->
  slice (Z.of_nat i) (Z.of_nat j) s = substring i (j - i) s.
Proof.
  intros Hij Hj. unfold slice, clamp.
  replace (Z.of_nat i <? 0)%Z with false by (symmetry; apply Z.ltb_ge; lia).
  replace (Z.of_nat j <? 0)%Z with false by (symmetry; apply Z.ltb_ge; lia).
  rewrite !Nat2Z.id. now rewrite !Nat.min_r by lia.
Qed.

Lemma scan_first (ctx : string) (h : list Message) :
  scan_report_text ctx h
  = match first_report_text h with Some text => text | None => ctx end.
Proof.
  induction h as [|m h IH]; simpl; [reflexivity|].
  now destruct (extract_report_text m).
Qed.

Lemma scan_assistant_none (ctx : string) (h : list Message) :
  Forall (fun m => long_assistant m = false) h ->
  scan_assistant ctx h = ctx.
Proof. induction 1 as [|m h Hm _ IH]; simpl; [reflexivity | now rewrite Hm]. Qed.

End RecoveryMore.

(** X9. Extraction is sound: when the scan takes a text from a
    message, the message has role ["system"], the text is not empty, and
    the content reads: something, ["__REPORT_TEXT__\n"], the text,
    ["\n__END_REPORT_TEXT__"], something. *)
Theorem extract_report_text_sound (msg : Message) (text : string) :
  extract_report_text msg = Some text ->
  role msg = "system"
  /\ text <> ""
  /\ exists before after,
       content msg = before ++ START_LINE ++ text ++ END_LINE ++ after.
Proof.
  unfold extract_report_text, carries_sentinel, Py.find, Py.len.
  destruct (role msg =? "system") eqn:R; [|discriminate].
  apply String.eqb_eq in R.
  destruct (Py.contains START_MARK (content msg)); [|discriminate].
  cbn [andb].
  destruct (Py.find_nat START_LINE (content msg)) as [i|] eqn:Fs;
    [|discriminate].
  destruct (Py.find_nat END_LINE (content msg)) as [j|] eqn:Fe.
  2:{ replace (-1 >? Z.of_nat i + Z.of_nat (String.length START_LINE))%Z
        with false by (symmetry; rewrite Z.gtb_ltb; apply Z.ltb_ge; lia).
      rewrite andb_false_r. discriminate. }
  change (String.length START_LINE) with 16.
  destruct (Z.of_nat j >? Z.of_nat i + Z.of_nat 16)%Z eqn:G;
    [|rewrite andb_false_r; discriminate].
  rewrite andb_true_r.
  destruct (Z.of_nat i + Z.of_nat 16 >? Z.of_nat 16 - 1)%Z; [|discriminate].
  intros [= <-]. apply Z.gtb_lt in G.
  destruct (RecoveryMore.find_nat_Some _ _ _ Fs) as (p & r & Hc & Hp).
  destruct (RecoveryMore.find_nat_Some _ _ _ Fe) as (a & b & Hc' & Ha).
  rewrite <- RecoveryMore.append_assoc in Hc.
  assert (L : String.length (p ++ START_LINE) = i + 16)
    by (rewrite PyFacts.length_app, Hp; reflexivity).
  destruct (RecoveryMore.append_split (p ++ START_LINE) r a (END_LINE ++ b)) as (m & Hm & Hr).
  { now rewrite <- Hc, <- Hc'. }
  { rewrite L, Ha. lia. }
  assert (Lm : String.length m = j - (i + 16)).
  { rewrite <- Ha, Hm, PyFacts.length_app, L. lia. }
  assert (T : Py.slice (Z.of_nat i + Z.of_nat 16) (Z.of_nat j) (content msg) = m).
  { rewrite <- Nat2Z.inj_add, RecoveryMore.slice_nat.
    - rewrite Hc, Hr, <- Lm, <- L. apply PyFacts.substring_app_mid.
    - lia.
    - rewrite Hc', PyFacts.length_app, Ha. lia. }
  change (Z.of_nat 16) with 16%Z in T. rewrite T. split; [exact R|]. split.
  - intros ->. simpl in Lm. lia.
  - exists p, b. now rewrite Hc, Hr, RecoveryMore.append_assoc.
Qed.

Lemma extract_report_text_sound_witness :
  exists before after,
    content Sample.report_msg
    = before ++ START_LINE ++ Sample.report ++ END_LINE ++ after.
Proof.
  exact (proj2 (proj2 (extract_report_text_sound Sample.report_msg
                         Sample.report eq_refl))).
Defined.

(** X10. Only system messages are read: the scan gives the same result
    on the history and on its system messages alone, so that a user or
    assistant message that imitates the markers changes nothing. *)
Theorem scan_reads_system_messages_only
    (context_text : string) (chat_history : list Message) :
  scan_report_text context_text chat_history
  = scan_report_text context_text
      (filter (fun m => role m =? "system") chat_history).
Proof.
  induction chat_history as [|m h IH]; [reflexivity|]. simpl.
  destruct (role m =? "system") eqn:R.
  - simpl. now rewrite IH.
  - unfold extract_report_text, carries_sentinel. rewrite R. simpl. exact IH.
Qed.

(** X11. With no context text and a history from which no report text
    can be extracted and whose assistant messages all have at most 100
    characters, the index is built from the text for the empty context;
    a message of exactly 100 characters is not taken. *)
Theorem no_context_gives_empty_context_text (chat_history : list Message) :
  Forall (fun m => extract_report_text m = None) chat_history ->
  Forall (fun m => role m <> "assistant"
                   \/ String.length (content m) <= 100) chat_history ->
  context_for_index "" chat_history = EMPTY_CONTEXT.
Proof.
  intros He Ha. unfold context_for_index, recover_context.
  rewrite (Recovery.scan_report_text_none "" chat_history He).
  rewrite RecoveryMore.scan_assistant_none.
  - now destruct (Py.nonempty chat_history).
  - apply Forall_rev. revert Ha. apply Forall_impl. intros m [H|H].
    + unfold long_assistant. apply String.eqb_neq in H. now rewrite H.
    + unfold long_assistant. apply Nat.ltb_ge in H. rewrite H.
      apply andb_false_r.
Qed.

Lemma no_context_gives_empty_context_text_witness :
  context_for_index "" [Sample.question; Sample2.analysis_100; Sample2.forged]
  = EMPTY_CONTEXT.
Proof.
  apply no_context_gives_empty_context_text.
  - repeat constructor.
  - apply Forall_cons; [left; discriminate|].
    apply Forall_cons; [right; apply Nat.leb_le; vm_compute; reflexivity|].
    apply Forall_cons; [left; discriminate|]. apply Forall_nil.
Defined.

(** ** The service: outcomes of one call *)

Module ServiceMore.

Section Facts.

Variable ext : Externals.

(** The four ways through the cache step. *)
Lemma ensure_cases (context_text : string) (s : Session) :
  (cache_miss s context_text = false
   /\ ensure_vector_store ext context_text s = ([], s, None))
  \/ (cache_miss s context_text = true
      /\ from_texts ext (index_texts ext context_text) = None
      /\ ensure_vector_store ext context_text s
         = (build_events ext context_text,
            set_vector_store s
              (mkVectorStore (index_texts ext context_text))
              (String.length context_text),
            None))
  \/ (exists e,
        cache_miss s context_text = true
        /\ from_texts ext (index_texts ext context_text) = Some e
        /\ from_texts ext (index_texts ext PLACEHOLDER) = None
        /\ ensure_vector_store ext context_text s
           = ((build_events ext context_text ++ [warning_event e]
               ++ build_events ext PLACEHOLDER)%list,
              set_vector_store s
                (mkVectorStore (index_texts ext PLACEHOLDER)) 0,
              None))
  \/ (exists e e',
        cache_miss s context_text = true
        /\ from_texts ext (index_texts ext context_text) = Some e
        /\ from_texts ext (index_texts ext PLACEHOLDER) = Some e'
        /\ ensure_vector_store ext context_text s
           = ((build_events ext context_text ++ [warning_event e]
               ++ build_events ext PLACEHOLDER)%list,
              s,
              Some ("Error: Could not initialize vector store. "
                    ++ message e))).
Proof.
  unfold ensure_vector_store.
  destruct (cache_miss s context_text); [|left; now split].
  right. rewrite !ServiceFacts.initialize_vector_store_eq.
  change (index_texts ext "No report context available.")
    with (index_texts ext PLACEHOLDER).
  change (effective_text "No report context available.")
    with (effective_text PLACEHOLDER).
  destruct (from_texts ext (index_texts ext context_text)) as [e|] eqn:F1.
  - right. destruct (from_texts ext (index_texts ext PLACEHOLDER)) as [e'|] eqn:F2.
    + right. exists e, e'. repeat split.
    + left. exists e. repeat split.
  - left. repeat split.
Qed.


Lemma respond_eq (agent : ChatAgent) (query : string)
    (chat_history : list Message) (t : list Event) (s : Session)
    (vs : VectorStore) :
  vector_store s = Some vs ->
  respond ext agent query chat_history t s
  = {| trace := (t ++ trace_of (get_response agent ext query vs
                                  (Some chat_history)))%list;
       session := s;
       value := value_of (get_response agent ext query vs
                            (Some chat_history)) |}.
Proof.
  intros H. unfold respond. rewrite H.
  now destruct (get_response agent ext query vs (Some chat_history)).
Qed.

End Facts.

Lemma try_chat_agent_outcome (ext : Externals)
    (ag : option ChatAgent) (err : option string) :
  try_chat_agent ext = inr (ag, err) ->
  (ag = None /\ exists msg, err = Some msg)
  \/ (exists a, ag = Some a /\ err = None).
Proof.
  unfold try_chat_agent.
  destruct (import_ChatAgent ext); [discriminate|].
  destruct (has_groq_key ext) as [|[|]]; [discriminate| |].
  - destruct (new_ChatAgent ext); [discriminate|].
    intros [= <- <-]. right. now eexists.
  - intros [= <- <-]. left. split; [reflexivity | now eexists].
Qed.

Lemma session_ok_set_chat_agent (s : Session)
    (ag : option ChatAgent) (err : option string) :
  analysis_agent s <> None ->
  vector_store s = None -> vector_store_key s = None ->
  (ag = None /\ exists msg, err = Some msg)
  \/ (exists a, ag = Some a /\ err = None) ->
  session_ok (set_chat_agent s ag err).
Proof.
  intros Ha Hv Hk H. unfold session_ok. simpl. rewrite Hv, Hk.
  split; [intros _; exact Ha|].
  split; [|split; [|split; [tauto|intros C; contradiction]]].
  - intros agent [= ->]. destruct H as [[H _]|(a & _ & ->)];
      [discriminate | reflexivity].
  - intros [= ->]. destruct H as [[_ (msg & ->)]|(a & H & _)];
      [now exists msg | discriminate].
Qed.

(** [session_ok] is kept by initialization. *)
Lemma session_ok_init (ext : Externals) (s s1 : Session) :
  session_ok s -> init_analysis_state ext s = inr s1 -> session_ok s1.
Proof.
  intros Hok Hi. destruct (chat_agent s) as [c|] eqn:Ec.
  - (* both agents are there already *)
    pose proof Hok as (I1 & _). rewrite Ec in I1.
    rewrite ServiceFacts.init_idempotent in Hi.
    + now injection Hi as <-.
    + apply I1. discriminate.
    + rewrite Ec. discriminate.
  - destruct Hok as (_ & _ & _ & I4 & I5).
    assert (V : vector_store s = None).
    { destruct (vector_store s) eqn:V; [|reflexivity].
      destruct I5 as [ag Hag]; congruence. }
    assert (K : vector_store_key s = None) by now apply I4.
    unfold init_analysis_state in Hi.
    assert (F : forall ag err,
               try_chat_agent ext = inr (ag, err) ->
               (ag = None /\ exists msg, err = Some msg)
               \/ (exists a, ag = Some a /\ err = None))
      by apply try_chat_agent_outcome.
    assert (G : forall s0 : Session,
               analysis_agent s0 <> None -> chat_agent s0 = None ->
               vector_store s0 = None -> vector_store_key s0 = None ->
               forall s2,
               match try_chat_agent ext with
               | inl e => inr (set_chat_agent s0 None (Some (chat_agent_failure e)))
               | inr (agent, err) => inr (set_chat_agent s0 agent err)
               end = inr (A := Exn) s2 -> session_ok s2).
    { intros s0 A0 C0 V0 K0 s2.
      destruct (try_chat_agent ext) as [e|[ag err]] eqn:T; intros [= <-];
        apply session_ok_set_chat_agent; auto.
      left. split; [reflexivity | now eexists]. }
    destruct (analysis_agent s) as [a|] eqn:Ea.
    + rewrite Ec in Hi. apply (G s); auto. rewrite Ea. discriminate.
    + destruct (new_AnalysisAgent ext); [discriminate|]. cbn [chat_agent] in Hi.
      rewrite Ec in Hi. eapply G; [| | | |exact Hi]; simpl; auto. discriminate.
Qed.

Lemma session_ok_set_vector_store (s : Session) (vs : VectorStore)
    (key : nat) (agent : ChatAgent) :
  session_ok s -> chat_agent s = Some (Some agent) ->
  session_ok (set_vector_store s vs key).
Proof.
  intros (I1 & I2 & I3 & _ & _) Ha. unfold session_ok. simpl.
  repeat split; try assumption; try discriminate.
  intros _. now exists agent.
Qed.

(** [session_ok] is kept by every call. *)
Lemma session_ok_call (ext : Externals) (query context_text : string)
    (chat_history : list Message) (s : Session) :
  session_ok s ->
  session_ok (session (get_chat_response ext query context_text
                         chat_history s)).
Proof.
  intros Hok. unfold get_chat_response.
  destruct (init_analysis_state ext s) as [e|s1] eqn:Hi; [exact Hok|].
  pose proof (session_ok_init ext s s1 Hok Hi) as Hok1.
  destruct (chat_agent s1) as [[agent|]|] eqn:Ha; try exact Hok1.
  destruct (ensure_cases ext (context_for_index context_text chat_history) s1)
    as [[_ E]|[(_ & _ & E)|[(e & _ & _ & _ & E)|(e & e' & _ & _ & _ & E)]]];
    rewrite E; try exact Hok1;
    rewrite (proj1 (ServiceFacts.respond_spec ext agent query chat_history _ _));
    try exact Hok1; now apply (session_ok_set_vector_store _ _ _ agent).
Qed.

Lemma session_ok_run (calls : list Call) (s : Session) :
  session_ok s -> session_ok (run calls s).
Proof.
  revert s. induction calls as [|c calls IH]; intros s Hok; [exact Hok|].
  simpl. apply IH. unfold call. now apply session_ok_call.
Qed.

Lemma session_ok_empty : session_ok empty_session.
Proof.
  unfold session_ok, empty_session. simpl.
  repeat split; try discriminate; try contradiction; tauto.
Qed.

Lemma retrievals_app (t t' : list Event) :
  retrievals (t ++ t') = (retrievals t ++ retrievals t')%list.
Proof. apply flat_map_app. Qed.

Lemma index_builds_app (t t' : list Event) :
  index_builds (t ++ t') = (index_builds t ++ index_builds t')%list.
Proof. apply flat_map_app. Qed.

Lemma completions_app (t t' : list Event) :
  completions (t ++ t') = (completions t ++ completions t')%list.
Proof. apply flat_map_app. Qed.

(** The call when the agent is there and the cache step gave [(t, s2)]. *)
Lemma call_responds (ext : Externals) (query context_text : string)
    (chat_history : list Message) (s s1 s2 : Session) (agent : ChatAgent)
    (t : list Event) (vs : VectorStore) :
  init_analysis_state ext s = inr s1 ->
  chat_agent s1 = Some (Some agent) ->
  ensure_vector_store ext (context_for_index context_text chat_history) s1
  = (t, s2, None) ->
  vector_store s2 = Some vs ->
  get_chat_response ext query context_text chat_history s
  = {| trace := (t ++ trace_of (get_response agent ext query vs
                                  (Some chat_history)))%list;
       session := s2;
       value := value_of (get_response agent ext query vs
                            (Some chat_history)) |}.
Proof.
  intros Hi Ha E V.
  rewrite (ServiceFacts.get_chat_response_available ext _ _ _ _ _ _ Hi Ha), E.
  now apply respond_eq.
Qed.

End ServiceMore.

(** X13. When both index constructions fail (on the context and on the
    placeholder), the call returns
    ["Error: Could not initialize vector store. "] followed by the text
    of the first exception; it sends no retrieval and no completion
    request and leaves the cached store and key as they were. *)
Theorem both_builds_fail_gives_error
    (ext : Externals) (query context_text : string)
    (chat_history : list Message) (s s1 : Session) (agent : ChatAgent)
    (e e' : Exn) :
  init_analysis_state ext s = inr s1 ->
  chat_agent s1 = Some (Some agent) ->
  let ctx := context_for_index context_text chat_history in
  (vector_store s = None \/ vector_store_key s <> Some (String.length ctx)) ->
  from_texts ext (index_texts ext ctx) = Some e ->
  from_texts ext (index_texts ext PLACEHOLDER) = Some e' ->
  let o := get_chat_response ext query context_text chat_history s in
  value o = inr ("Error: Could not initialize vector store. " ++ message e)
  /\ vector_store (session o) = vector_store s
  /\ vector_store_key (session o) = vector_store_key s
  /\ index_builds (trace o)
     = [index_texts ext ctx; index_texts ext PLACEHOLDER]
  /\ retrievals (trace o) = []
  /\ completions (trace o) = [].
Proof.
  intros Hi Ha ctx Hmiss F1 F2. cbv zeta.
  destruct (ServiceFacts.init_keeps_index ext s s1 Hi) as [Hv Hk].
  rewrite (ServiceFacts.get_chat_response_available ext _ _ _ _ _ _ Hi Ha).
  fold ctx.
  destruct (ServiceMore.ensure_cases ext ctx s1)
    as [[M _]|[(_ & F & _)|[(x & _ & _ & F & _)|(x & x' & _ & Fx & _ & E)]]].
  - exfalso. rewrite <- Hv, <- Hk in Hmiss.
    apply ServiceFacts.cache_miss_iff in Hmiss. congruence.
  - congruence.
  - congruence.
  - rewrite E. rewrite F1 in Fx. injection Fx as <-. simpl.
    repeat split; assumption.
Qed.

Lemma both_builds_fail_gives_error_witness :
  value (get_chat_response Sample2.no_embedding "What is the blood pressure?"
           Sample.report [Sample.question] empty_session)
  = inr "Error: Could not initialize vector store. service unavailable".
Proof.
  refine (proj1 (both_builds_fail_gives_error Sample2.no_embedding
                   "What is the blood pressure?" Sample.report
                   [Sample.question] empty_session
                   (set_chat_agent
                      {| analysis_agent := Some mkAnalysisAgent;
                         chat_agent := None; chat_agent_error := None;
                         vector_store := None; vector_store_key := None |}
                      (Some ChatAgent_init) None)
                   ChatAgent_init Sample.boom Sample.boom
                   eq_refl eq_refl _ eq_refl eq_refl)).
  left. reflexivity.
Defined.

(** X14. When the cache misses and index construction succeeds, the
    session holds the index of the chunks of the context text and, as
    key, the length of that text; the index is built once, and the one
    retrieval of the call is made on it. *)
Theorem successful_build_is_cached
    (ext : Externals) (query context_text : string)
    (chat_history : list Message) (s s1 : Session) (agent : ChatAgent) :
  init_analysis_state ext s = inr s1 ->
  chat_agent s1 = Some (Some agent) ->
  let ctx := context_for_index context_text chat_history in
  (vector_store s = None \/ vector_store_key s <> Some (String.length ctx)) ->
  from_texts ext (index_texts ext ctx) = None ->
  let o := get_chat_response ext query context_text chat_history s in
  let vs := mkVectorStore (index_texts ext ctx) in
  vector_store (session o) = Some vs
  /\ vector_store_key (session o) = Some (String.length ctx)
  /\ index_builds (trace o) = [index_texts ext ctx]
  /\ exists cq, retrievals (trace o) = [(vs, 3, cq)].
Proof.
  intros Hi Ha ctx Hmiss F. cbv zeta.
  destruct (ServiceFacts.init_keeps_index ext s s1 Hi) as [Hv Hk].
  destruct (ServiceMore.ensure_cases ext ctx s1)
    as [[M _]|[(_ & _ & E)|[(x & _ & Fx & _)|(x & x' & _ & Fx & _)]]];
    try congruence.
  - exfalso. rewrite <- Hv, <- Hk in Hmiss.
    apply ServiceFacts.cache_miss_iff in Hmiss. congruence.
  - rewrite (ServiceMore.call_responds ext query context_text chat_history
               s s1 _ agent _ (mkVectorStore (index_texts ext ctx)) Hi Ha E
               eq_refl).
    destruct (AgentMore.get_response_observed agent ext query
                (mkVectorStore (index_texts ext ctx)) (Some chat_history))
      as (answer & cq & _ & R & B & _).
    cbn [session trace].
    rewrite ServiceMore.index_builds_app, ServiceMore.retrievals_app, R, B.
    repeat split. now exists cq.
Qed.

Lemma successful_build_is_cached_witness :
  vector_store
    (session (get_chat_response Sample.services "What is the blood pressure?"
                Sample.report [] empty_session))
  = Some {| chunks := [Sample.report] |}.
Proof.
  refine (proj1 (successful_build_is_cached Sample.services
                   "What is the blood pressure?" Sample.report []
                   empty_session
                   (set_chat_agent
                      {| analysis_agent := Some mkAnalysisAgent;
                         chat_agent := None; chat_agent_error := None;
                         vector_store := None; vector_store_key := None |}
                      (Some ChatAgent_init) None)
                   ChatAgent_init eq_refl eq_refl _ eq_refl)).
  left. reflexivity.
Defined.

(** X15. Stale index. After a call that built the index from its
    context text, a call whose context text has the same length builds
    nothing: its retrieval is made on the index of the FIRST text, which
    stays in the session, even when the two texts differ. *)
Theorem same_length_context_uses_stale_index
    (ext1 ext2 : Externals) (q1 c1 q2 c2 : string) (h1 h2 : list Message)
    (s s1 : Session) (agent : ChatAgent) :
  init_analysis_state ext1 s = inr s1 ->
  chat_agent s1 = Some (Some agent) ->
  let ctx1 := context_for_index c1 h1 in
  let ctx2 := context_for_index c2 h2 in
  (vector_store s = None \/ vector_store_key s <> Some (String.length ctx1)) ->
  from_texts ext1 (index_texts ext1 ctx1) = None ->
  String.length ctx1 = String.length ctx2 ->
  let o1 := get_chat_response ext1 q1 c1 h1 s in
  let o2 := get_chat_response ext2 q2 c2 h2 (session o1) in
  let vs1 := mkVectorStore (index_texts ext1 ctx1) in
  index_builds (trace o2) = []
  /\ (exists cq, retrievals (trace o2) = [(vs1, 3, cq)])
  /\ vector_store (session o2) = Some vs1.
Proof.
  intros Hi Ha ctx1 ctx2 Hmiss F Hlen. cbv zeta.
  destruct (ServiceFacts.init_keeps_index ext1 s s1 Hi) as [Hv Hk].
  destruct (ServiceFacts.init_sets_agents ext1 s s1 Hi) as [Haa _].
  destruct (ServiceMore.ensure_cases ext1 ctx1 s1)
    as [[M _]|[(_ & _ & E)|[(x & _ & Fx & _)|(x & x' & _ & Fx & _)]]];
    try congruence.
  { exfalso. rewrite <- Hv, <- Hk in Hmiss.
    apply ServiceFacts.cache_miss_iff in Hmiss. congruence. }
  rewrite (ServiceMore.call_responds ext1 q1 c1 h1 s s1 _ agent _
             (mkVectorStore (index_texts ext1 ctx1)) Hi Ha E eq_refl).
  cbn [session].
  set (s2 := set_vector_store s1 (mkVectorStore (index_texts ext1 ctx1))
               (String.length ctx1)).
  assert (Hi2 : init_analysis_state ext2 s2 = inr s2)
    by (apply ServiceFacts.init_idempotent; simpl; congruence).
  assert (E2 : ensure_vector_store ext2 ctx2 s2 = ([], s2, None)).
  { unfold ensure_vector_store, cache_miss. simpl. fold ctx2.
    now rewrite <- Hlen, Nat.eqb_refl. }
  rewrite (ServiceMore.call_responds ext2 q2 c2 h2 s2 s2 s2 agent []
             (mkVectorStore (index_texts ext1 ctx1)) Hi2 Ha E2 eq_refl).
  destruct (AgentMore.get_response_observed agent ext2 q2
              (mkVectorStore (index_texts ext1 ctx1)) (Some h2))
    as (answer & cq & _ & R & B & _).
  cbn [session trace app]. rewrite R, B.
  split; [reflexivity|]. split; [now exists cq | reflexivity].
Qed.

Lemma same_length_context_uses_stale_index_witness :
  map fst (map fst
    (retrievals
       (trace (get_chat_response Sample.services "What is the blood pressure?"
                 "Patient BP 150/95." []
                 (session (get_chat_response Sample.services
                             "What is the blood pressure?"
                             "Patient BP 140/90." [] empty_session))))))
  = [ {| chunks := ["Patient BP 140/90."] |} ].
Proof.
  destruct (same_length_context_uses_stale_index Sample.services
              Sample.services "What is the blood pressure?"
              "Patient BP 140/90." "What is the blood pressure?"
              "Patient BP 150/95." [] [] empty_session
              (set_chat_agent
                 {| analysis_agent := Some mkAnalysisAgent;
                    chat_agent := None; chat_agent_error := None;
                    vector_store := None; vector_store_key := None |}
                 (Some ChatAgent_init) None)
              ChatAgent_init eq_refl eq_refl (or_introl eq_refl) eq_refl
              eq_refl) as (_ & (cq & R) & _).
  rewrite R. reflexivity.
Defined.

(** X16. A failed initialization of the chat agent is permanent for the
    session: once the slot holds [None], every later call returns the
    same error, whatever the services do by then; [ChatAgent()] is not
    tried again. *)
Theorem initialization_failure_is_permanent
    (ext : Externals) (query context_text : string)
    (chat_history : list Message) (s s1 : Session) :
  init_analysis_state ext s = inr s1 ->
  chat_agent s1 = Some None ->
  let o := get_chat_response ext query context_text chat_history s in
  session o = s1
  /\ forall ext2 query2 context_text2 chat_history2,
       get_chat_response ext2 query2 context_text2 chat_history2 (session o)
       = o.
Proof.
  intros Hi Ha. cbv zeta.
  destruct (ServiceFacts.init_sets_agents ext s s1 Hi) as [Haa Hc].
  assert (E : get_chat_response ext query context_text chat_history s
              = {| trace := []; session := s1;
                   value := inr ("Error: "
                                 ++ match chat_agent_error s1 with
                                    | None => default_error
                                    | Some v => format_opt v
                                    end) |}).
  { unfold get_chat_response. now rewrite Hi, Ha. }
  rewrite E. cbn [session].
  split; [reflexivity|]. intros ext2 query2 context_text2 chat_history2.
  unfold get_chat_response.
  rewrite (ServiceFacts.init_idempotent ext2 s1 Haa Hc), Ha. reflexivity.
Qed.

Lemma initialization_failure_is_permanent_witness :
  get_chat_response Sample.services "And now?" Sample.report []
    (session (get_chat_response Sample.no_api_key
                "What is the blood pressure?" Sample.report []
                empty_session))
  = get_chat_response Sample.no_api_key "What is the blood pressure?"
      Sample.report [] empty_session.
Proof.
  apply (proj2 (initialization_failure_is_permanent Sample.no_api_key
                  "What is the blood pressure?" Sample.report []
                  empty_session
                  (set_chat_agent
                     {| analysis_agent := Some mkAnalysisAgent;
                        chat_agent := None; chat_agent_error := None;
                        vector_store := None; vector_store_key := None |}
                     None
                     (Some "GROQ_API_KEY not found in secrets. Please add it to .streamlit/secrets.toml"))
                  eq_refl eq_refl)).
Defined.

(** X17. When the import, the lookup of the key or [ChatAgent()] raises
    in a session that has no chat agent yet, nothing is raised: the slot
    is set to [None], the message of the matching [except] clause is
    stored, and the call returns ["Error: "] followed by that message,
    without calling any service. *)
Theorem chat_agent_failure_is_reported
    (ext : Externals) (query context_text : string)
    (chat_history : list Message) (s : Session) (e : Exn) :
  chat_agent s = None ->
  (analysis_agent s <> None \/ new_AnalysisAgent ext = None) ->
  try_chat_agent ext = inl e ->
  let o := get_chat_response ext query context_text chat_history s in
  value o = inr ("Error: " ++ chat_agent_failure e)
  /\ chat_agent (session o) = Some None
  /\ chat_agent_error (session o) = Some (Some (chat_agent_failure e))
  /\ trace o = [].
Proof.
  intros Hc Han T. cbv zeta. unfold get_chat_response, init_analysis_state.
  destruct (analysis_agent s) as [a|] eqn:Ea.
  - rewrite Hc, T. simpl. repeat split.
  - destruct Han as [Han|Han]; [contradiction|]. rewrite Han. simpl.
    rewrite Hc, T. simpl. repeat split.
Qed.

Lemma chat_agent_failure_is_reported_witness :
  value (get_chat_response Sample2.broken_agent "What is the blood pressure?"
           Sample.report [] empty_session)
  = inr ("Error: Missing configuration: 'GROQ_API_KEY'. "
         ++ "Please check your .streamlit/secrets.toml file.").
Proof.
  refine (proj1 (chat_agent_failure_is_reported Sample2.broken_agent
                   "What is the blood pressure?" Sample.report []
                   empty_session _ eq_refl _ eq_refl)).
  right. reflexivity.
Defined.

(** X18. In every session reached from the empty one by calls of
    [get_chat_response], under any services: the chat agent is only
    there with the analysis agent; an agent that was built has no error
    stored and one that failed has its message stored; the vector store
    and its key are there together, and only with a working agent. *)
Theorem reachable_sessions_are_consistent (calls : list Call) :
  session_ok (run calls empty_session).
Proof. apply ServiceMore.session_ok_run, ServiceMore.session_ok_empty. Qed.

(** X19. In a session reached from the empty one whose chat agent slot
    holds [None], an error message is stored, and every call returns
    ["Error: "] followed by that message, raising nothing, calling no
    service and leaving the session as it is: the canned default is
    never needed. *)
Theorem reachable_None_returns_stored_error (calls : list Call) :
  chat_agent (run calls empty_session) = Some None ->
  exists msg,
    chat_agent_error (run calls empty_session) = Some (Some msg)
    /\ forall ext query context_text chat_history,
         get_chat_response ext query context_text chat_history
           (run calls empty_session)
         = {| trace := []; session := run calls empty_session;
              value := inr ("Error: " ++ msg) |}.
Proof.
  intros Hc.
  pose proof (ServiceMore.session_ok_run calls empty_session
                ServiceMore.session_ok_empty) as (I1 & _ & I3 & _).
  destruct (I3 Hc) as [msg Hmsg]. exists msg. split; [exact Hmsg|].
  intros ext query context_text chat_history. unfold get_chat_response.
  rewrite ServiceFacts.init_idempotent.
  - now rewrite Hc, Hmsg.
  - apply I1. rewrite Hc. discriminate.
  - rewrite Hc. discriminate.
Qed.

Lemma reachable_None_returns_stored_error_witness :
  exists msg,
    chat_agent_error
      (run [mkCall Sample.no_api_key "What is the blood pressure?" "" []]
         empty_session) = Some (Some msg)
    /\ forall ext query context_text chat_history,
         get_chat_response ext query context_text chat_history
           (run [mkCall Sample.no_api_key "What is the blood pressure?" "" []]
              empty_session)
         = {| trace := [];
              session :=
                run [mkCall Sample.no_api_key "What is the blood pressure?"
                       "" []] empty_session;
              value := inr ("Error: " ++ msg) |}.
Proof.
  apply (reachable_None_returns_stored_error
           [mkCall Sample.no_api_key "What is the blood pressure?" "" []]).
  reflexivity.
Defined.

(** X20. One call of [get_chat_response] builds an index at most twice,
    asks the retriever at most once and sends at most two completion
    requests, whatever the inputs and the services. *)
Theorem call_cost_is_bounded
    (ext : Externals) (query context_text : string)
    (chat_history : list Message) (s : Session) :
  let o := get_chat_response ext query context_text chat_history s in
  List.length (index_builds (trace o)) <= 2
  /\ List.length (retrievals (trace o)) <= 1
  /\ List.length (completions (trace o)) <= 2.
Proof.
  cbv zeta. unfold get_chat_response.
  destruct (init_analysis_state ext s) as [e|s1] eqn:Hi; [simpl; lia|].
  destruct (chat_agent s1) as [[agent|]|] eqn:Ha; [|simpl; lia|simpl; lia].
  set (ctx := context_for_index context_text chat_history).
  assert (R : forall t s2,
             List.length (index_builds t) <= 2 ->
             retrievals t = [] -> completions t = [] ->
             let r := respond ext agent query chat_history t s2 in
             List.length (index_builds (trace r)) <= 2
             /\ List.length (retrievals (trace r)) <= 1
             /\ List.length (completions (trace r)) <= 2).
  { intros t s2 Hb Hr Hcm. cbv zeta. unfold respond.
    destruct (vector_store s2) as [vs|].
    - destruct (AgentMore.get_response_observed agent ext query vs
                  (Some chat_history)) as (answer & cq & _ & Rr & Rb & Rc & _).
      destruct (get_response agent ext query vs (Some chat_history))
        as [t' r]. unfold trace_of in *. cbn [fst] in *. cbn [trace].
      rewrite ServiceMore.index_builds_app, ServiceMore.retrievals_app,
        ServiceMore.completions_app, Rr, Rb, Hr, Hcm, app_nil_r.
      cbn [app List.length]. rewrite Rc.
      destruct (Py.nonempty (history_of (Some chat_history))); lia.
    - cbn [trace]. rewrite Hr, Hcm. simpl. lia. }
  destruct (ServiceMore.ensure_cases ext ctx s1)
    as [[_ E]|[(_ & _ & E)|[(x & _ & _ & _ & E)|(x & x' & _ & _ & _ & E)]]];
    rewrite E.
  - apply R; [simpl; lia | reflexivity | reflexivity].
  - apply R; [simpl; lia | reflexivity | reflexivity].
  - apply R; [simpl; lia | reflexivity | reflexivity].
  - simpl. lia.
Qed.

(** ** The page: [main.py] *)

Module PageFacts.

Lemma report_context (current_report_text : option string)
    (messages : list Message) :
  fst (handle_chat_input_report current_report_text messages)
  = handle_chat_input_context
      (match current_report_text with Some t => t | None => "" end) messages.
Proof.
  unfold handle_chat_input_report, handle_chat_input_context.
  destruct (negb _ && _); [|reflexivity].
  rewrite RecoveryMore.scan_first.
  now destruct (first_report_text messages).
Qed.

Lemma context_for_index_prescan (context_text : string)
    (messages : list Message) :
  context_for_index (handle_chat_input_context context_text messages) messages
  = context_for_index context_text messages.
Proof.
  unfold handle_chat_input_context.
  destruct context_text as [|c ctx]; [|reflexivity].
  destruct messages as [|m h]; [reflexivity|].
  cbn [Py.truthy String.eqb negb andb Py.nonempty].
  destruct (scan_report_text "" (m :: h)) as [|c t] eqn:S; [reflexivity|].
  unfold context_for_index, recover_context.
  cbn [Py.truthy String.eqb negb andb Py.nonempty]. rewrite S. reflexivity.
Qed.

Lemma report_stored (current_report_text : option string)
    (messages : list Message) :
  fst (handle_chat_input_report current_report_text messages) <> "" ->
  snd (handle_chat_input_report current_report_text messages)
  = Some (fst (handle_chat_input_report current_report_text messages)).
Proof.
  unfold handle_chat_input_report.
  destruct current_report_text as [[|c t]|];
    cbn [Py.truthy String.eqb negb andb]; try reflexivity;
    (destruct (Py.nonempty messages); [|intros H; now contradiction H]);
    (destruct (first_report_text messages) as [text|];
     [reflexivity | intros H; now contradiction H]).
Qed.

Lemma report_reused (t : string) (messages : list Message) :
  t <> "" -> handle_chat_input_report (Some t) messages = (t, Some t).
Proof.
  intros Ht. unfold handle_chat_input_report, Py.truthy.
  apply String.eqb_neq in Ht. now rewrite Ht.
Qed.

End PageFacts.

(** X21. [show_chat_history] displays the messages that are not system
    messages, in order, user messages with [st.info] and all others with
    [st.success], and returns every loaded message, system messages
    included; when loading fails it displays and returns nothing. The
    chat input is offered exactly when loading succeeded with at least
    one message. *)
Theorem show_chat_history_hides_system_messages (messages : list Message) :
  show_chat_history (true, messages)
  = (map (fun m => if role m =? "user" then Info (content m)
                   else Success (content m))
       (filter (fun m => negb (role m =? "system")) messages),
     messages)
  /\ show_chat_history (false, messages) = ([], [])
  /\ (forall ok, chat_offered (ok, messages) = ok && Py.nonempty messages).
Proof.
  split; [|split; [reflexivity | intros [|]; reflexivity]].
  unfold show_chat_history. f_equal.
  induction messages as [|m h IH]; [reflexivity|]. simpl.
  destruct (role m =? "system"); simpl; [exact IH|].
  destruct (role m =? "user"); now rewrite IH.
Qed.

(** X22. The scan that [handle_chat_input] makes before calling
    [get_chat_response] changes nothing in what the service does: the
    call with the context it hands over is the call with
    [current_report_text] as it was in the session (empty when absent). *)
Theorem prescan_changes_nothing
    (ext : Externals) (query : string) (current_report_text : option string)
    (messages : list Message) (s : Session) :
  get_chat_response ext query
    (fst (handle_chat_input_report current_report_text messages)) messages s
  = get_chat_response ext query
      (match current_report_text with Some t => t | None => "" end)
      messages s.
Proof.
  unfold get_chat_response.
  now rewrite PageFacts.report_context, PageFacts.context_for_index_prescan.
Qed.

(** X23. Once [handle_chat_input] has a report text, it keeps it: the
    text is in [current_report_text] afterwards, and every later turn
    hands over the same text whatever the messages are by then. *)
Theorem report_text_is_kept
    (current_report_text : option string) (messages : list Message) :
  let context_text :=
    fst (handle_chat_input_report current_report_text messages) in
  let stored := snd (handle_chat_input_report current_report_text messages) in
  context_text <> "" ->
  stored = Some context_text
  /\ forall messages',
       handle_chat_input_report stored messages' = (context_text, stored).
Proof.
  cbv zeta. intros H.
  pose proof (PageFacts.report_stored current_report_text messages H) as S.
  split; [exact S|]. rewrite S. intros messages'.
  now apply PageFacts.report_reused.
Qed.

Lemma report_text_is_kept_witness :
  handle_chat_input_report
    (snd (handle_chat_input_report None [Sample.report_msg; Sample.question]))
    [Sample.question]
  = (Sample.report, Some Sample.report).
Proof.
  apply (proj2 (report_text_is_kept None [Sample.report_msg; Sample.question]
                  ltac:(discriminate))).
Defined.

(** X24. The fallback index is read as no context. When index
    construction fails on the context and the fallback builds the index
    from the placeholder ["No report context available."] (kept whole by
    the splitter and returned by the retriever), the final request is
    the one for the empty context: its user message is the history-only
    one. *)
Theorem fallback_index_gives_history_only
    (ext : Externals) (query context_text : string)
    (chat_history : list Message) (s s1 : Session) (agent : ChatAgent)
    (e : Exn) (tq : list Event) (cq : string) :
  init_analysis_state ext s = inr s1 ->
  chat_agent s1 = Some (Some agent) ->
  let ctx := context_for_index context_text chat_history in
  (vector_store s = None \/ vector_store_key s <> Some (String.length ctx)) ->
  from_texts ext (index_texts ext ctx) = Some e ->
  split_text ext PLACEHOLDER = [PLACEHOLDER] ->
  from_texts ext [PLACEHOLDER] = None ->
  _contextualize_query agent ext query chat_history = (tq, inr cq) ->
  get_relevant_documents ext (mkVectorStore [PLACEHOLDER]) 3 cq
    = inr [PLACEHOLDER] ->
  let o := get_chat_response ext query context_text chat_history s in
  let req := answer_request agent "" query chat_history in
  List.last (completions (trace o)) req = req
  /\ completions (trace o) = (completions tq ++ [req])%list
  /\ List.last (messages req) {| role := ""; content := "" |}
     = {| role := "user"; content := history_only query |}
  /\ value o = inr (answer_of ext req).
Proof.
  intros Hi Ha ctx Hmiss F1 Hsplit F2 Hq Hdocs. cbv zeta.
  destruct (ServiceFacts.init_keeps_index ext s s1 Hi) as [Hv Hk].
  assert (T : index_texts ext PLACEHOLDER = [PLACEHOLDER]).
  { unfold index_texts.
    change (effective_text PLACEHOLDER) with PLACEHOLDER. now rewrite Hsplit. }
  assert (C : completions (trace (get_chat_response ext query context_text
                                    chat_history s))
              = (completions tq
                 ++ [answer_request agent "" query chat_history])%list
              /\ value (get_chat_response ext query context_text
                          chat_history s)
                 = inr (answer_of ext
                          (answer_request agent "" query chat_history))).
  { destruct (ServiceMore.ensure_cases ext ctx s1)
      as [[M _]|[(_ & F & _)|[(x & _ & _ & _ & E)|(x & x' & _ & _ & F & _)]]].
    - exfalso. rewrite <- Hv, <- Hk in Hmiss.
      apply ServiceFacts.cache_miss_iff in Hmiss. congruence.
    - congruence.
    - rewrite T in E.
      rewrite (ServiceMore.call_responds ext query context_text chat_history
                 s s1 _ agent _ (mkVectorStore [PLACEHOLDER]) Hi Ha E eq_refl).
      rewrite (AgentMore.get_response_with agent ext query
                 (mkVectorStore [PLACEHOLDER]) (Some chat_history) tq
                 [GetRelevantDocuments (mkVectorStore [PLACEHOLDER]) 3 cq]
                 cq "" Hq).
      + cbn [trace value trace_of value_of fst snd history_of].
        rewrite !ServiceMore.completions_app. split; reflexivity.
      + rewrite (Prompt.retrieve_docs _ _ _ _ Hdocs). reflexivity.
    - rewrite T in F. congruence. }
  destruct C as [C V]. rewrite C, V, last_last.
  split; [reflexivity|]. split; [reflexivity|]. split; [|reflexivity].
  unfold answer_request. cbn [messages].
  rewrite AgentMore.build_messages_eq.
  change ({| role := "system"; content := qa_system_prompt |}
          :: Py.last_n 6 chat_history ++
             [{| role := "user"; content := user_message "" query |}])%list
    with (({| role := "system"; content := qa_system_prompt |}
           :: Py.last_n 6 chat_history) ++
          [{| role := "user"; content := user_message "" query |}])%list.
  now rewrite last_last.
Qed.

Lemma fallback_index_gives_history_only_witness :
  map (fun req => map content (messages req))
    (completions
       (trace (get_chat_response Sample.flaky_embedding
                 "What is the blood pressure?" Sample.report []
                 empty_session)))
  = [ [qa_system_prompt; history_only "What is the blood pressure?"] ].
Proof.
  rewrite (proj1 (proj2 (fallback_index_gives_history_only
                           Sample.flaky_embedding
                           "What is the blood pressure?" Sample.report []
                           empty_session
                           (set_chat_agent
                              {| analysis_agent := Some mkAnalysisAgent;
                                 chat_agent := None; chat_agent_error := None;
                                 vector_store := None;
                                 vector_store_key := None |}
                              (Some ChatAgent_init) None)
                           ChatAgent_init Sample.boom []
                           "What is the blood pressure?"
                           eq_refl eq_refl (or_introl eq_refl) eq_refl
                           eq_refl eq_refl eq_refl eq_refl))).
  reflexivity.
Defined.

(** ** History messages as dicts *)

Module RawFacts.

Lemma last_n_map {A B} (f : A -> B) (n : nat) (l : list A) :
  Py.last_n n (map f l) = map f (Py.last_n n l).
Proof. unfold Py.last_n. now rewrite length_map, skipn_map. Qed.

Lemma nonempty_map {A B} (f : A -> B) (l : list A) :
  Py.nonempty (map f l) = Py.nonempty l.
Proof. now destruct l. Qed.

Lemma Exists_skipn {A} (P : A -> Prop) (n : nat) (l : list A) :
  Exists P (skipn n l) -> Exists P l.
Proof.
  revert l. induction n as [|n IH]; intros [|x l] H; try exact H.
  simpl in H. apply Exists_cons_tl. now apply IH.
Qed.


(** The window of four lies inside the window of six. *)
Lemma Exists_last_4_6 {A} (P : A -> Prop) (l : list A) :
  Exists P (Py.last_n 4 l) -> Exists P (Py.last_n 6 l).
Proof.
  unfold Py.last_n. intros H.
  replace (List.length l - 4)
    with ((List.length l - 4 - (List.length l - 6)) + (List.length l - 6))
    in H by lia.
  rewrite <- skipn_skipn in H. now apply Exists_skipn in H.
Qed.

Lemma complete_raw_of (ms : list Message) :
  ~ Exists incomplete (map raw_of ms).
Proof.
  intros H. apply Exists_exists in H. destruct H as (m & Hin & Hm).
  apply in_map_iff in Hin. destruct Hin as (x & <- & _). discriminate.
Qed.

(** [_format_chat_history] on dicts: it raises [KeyError] exactly when a
    message lacks a key, and is the identity otherwise. *)
Lemma format_result (l : list RawMessage) :
  (exists e, raw_format_chat_history l = inl e
             /\ kind e = KeyError /\ Exists incomplete l)
  \/ (exists ms, raw_format_chat_history l = inr ms /\ l = map raw_of ms).
Proof.
  induction l as [|[[r|] [c|]] l IH]; simpl.
  - right. now exists [].
  - destruct IH as [(e & -> & K & E)|(ms & -> & ->)].
    + left. exists e. repeat split; [exact K | now apply Exists_cons_tl].
    + right. now exists ({| role := r; content := c |} :: ms).
  - left. eexists. repeat split. now apply Exists_cons_hd.
  - left. eexists. repeat split. now apply Exists_cons_hd.
  - left. eexists. repeat split. now apply Exists_cons_hd.
Qed.

Lemma lines_via_format (l : list RawMessage) :
  raw_history_lines l
  = match raw_format_chat_history l with
    | inl e => inl e
    | inr ms => inr (map history_line ms)
    end.
Proof.
  induction l as [|[[r|] [c|]] l IH]; simpl; try reflexivity.
  rewrite IH. now destruct (raw_format_chat_history l).
Qed.

Lemma format_raw_of (ms : list Message) :
  raw_format_chat_history (map raw_of ms) = inr ms.
Proof.
  induction ms as [|[r c] ms IH]; simpl; [reflexivity | now rewrite IH].
Qed.

Section Agent.

Variable self : ChatAgent.
Variable ext : Externals.

Lemma contextualize_raw_of (query : string) (ms : list Message) :
  raw_contextualize_query self ext query (map raw_of ms)
  = _contextualize_query self ext query ms.
Proof.
  unfold raw_contextualize_query, _contextualize_query.
  rewrite nonempty_map. destruct (Py.nonempty ms); [|reflexivity].
  cbn [negb]. rewrite last_n_map, lines_via_format, format_raw_of.
  reflexivity.
Qed.

Lemma build_messages_raw_of (context query : string) (ms : list Message) :
  raw_build_messages context query (map raw_of ms)
  = inr (build_messages context query ms).
Proof.
  unfold raw_build_messages, build_messages. rewrite nonempty_map.
  destruct (Py.nonempty ms); [|reflexivity].
  rewrite last_n_map, format_raw_of, AgentMore.format_chat_history_id.
  now rewrite <- app_assoc.
Qed.

(** On dicts that have both keys, [get_response] is the function of the
    record model. *)
Lemma get_response_raw_of (query : string) (vs : VectorStore)
    (ms : list Message) :
  raw_get_response self ext query vs (Some (map raw_of ms))
  = get_response self ext query vs (Some ms).
Proof.
  unfold raw_get_response, get_response. cbn [raw_history_of history_of].
  rewrite contextualize_raw_of.
  destruct (_contextualize_query self ext query ms) as [tq [e|cq]];
    [reflexivity|].
  unfold bind at 1 3.
  destruct (AgentFacts.retrieve_total ext vs cq) as (context & ->).
  unfold bind. now rewrite build_messages_raw_of.
Qed.

Lemma contextualize_cases (query : string) (h : list RawMessage) :
  (exists e, kind e = KeyError /\ Exists incomplete (Py.last_n 4 h)
             /\ raw_contextualize_query self ext query h = ([], inl e))
  \/ (exists tq cq,
        (tq = [] \/ exists r, tq = [ChatCompletion r])
        /\ (h = [] -> cq = query)
        /\ raw_contextualize_query self ext query h = (tq, inr cq)).
Proof.
  unfold raw_contextualize_query.
  destruct h as [|m h]; [right; exists [], query; repeat split; now left|].
  cbn [Py.nonempty negb]. rewrite lines_via_format.
  destruct (format_result (Py.last_n 4 (m :: h)))
    as [(e & -> & K & E)|(m4 & -> & _)].
  - left. now exists e.
  - right. unfold call_completion, bind, emit, try_except.
    match goal with
    | |- context [chat_completions_create ext ?r] =>
        destruct (chat_completions_create ext r) as [x|a]
    end; simpl; eexists _, _; (split; [right; now eexists|]);
      (split; [discriminate | reflexivity]).
Qed.

Lemma build_messages_cases (context query : string) (h : list RawMessage) :
  (exists e, kind e = KeyError /\ Exists incomplete (Py.last_n 6 h)
             /\ raw_build_messages context query h = inl e)
  \/ (exists ms msgs,
        Py.last_n 6 h = map raw_of ms
        /\ raw_build_messages context query h = inr msgs).
Proof.
  unfold raw_build_messages.
  destruct h as [|m h]; [right; exists []; eexists; split; reflexivity|].
  cbn [Py.nonempty].
  destruct (format_result (Py.last_n 6 (m :: h)))
    as [(e & -> & K & E)|(m6 & -> & H6)].
  - left. now exists e.
  - right. exists m6. eexists. split; [exact H6 | reflexivity].
Qed.

(** The ways through [get_response] on dicts. *)
Lemma get_response_cases (query : string) (vs : VectorStore)
    (chat_history : option (list RawMessage)) :
  let h := raw_history_of chat_history in
  let o := raw_get_response self ext query vs chat_history in
  (exists e t,
      kind e = KeyError /\ Exists incomplete (Py.last_n 6 h)
      /\ o = (t, inl e)
      /\ index_builds t = []
      /\ List.length (retrievals t) <= 1
      /\ List.length (completions t) <= 1)
  \/ (exists ms tq cq req,
        Py.last_n 6 h = map raw_of ms
        /\ (tq = [] \/ exists r, tq = [ChatCompletion r])
        /\ (h = [] -> cq = query)
        /\ o = ((tq ++ [GetRelevantDocuments vs 3 cq; ChatCompletion req])%list,
                inr (answer_of ext req))).
Proof.
  cbv zeta. unfold raw_get_response.
  set (h := raw_history_of chat_history).
  destruct (contextualize_cases query h)
    as [(e & K & E & ->)|(tq & cq & Htq & Hcq & ->)].
  - left. exists e, []. repeat split; try assumption; try (simpl; lia).
    now apply Exists_last_4_6.
  - unfold bind. cbv beta iota.
    destruct (AgentFacts.retrieve_total ext vs cq) as (context & ->).
    cbv beta iota.
    destruct (build_messages_cases context query h)
      as [(e & K & E & ->)|(ms & msgs & H6 & ->)]; cbv beta iota.
    + left. exists e, (tq ++ [GetRelevantDocuments vs 3 cq])%list.
      repeat split; try assumption;
        destruct Htq as [->|[r ->]]; simpl; try reflexivity; lia.
    + right.
      exists ms, tq, cq,
        {| model := model_name self; messages := msgs;
           temperature := (7 # 10)%Q; max_tokens := 500 |}.
      repeat split; try assumption.
      unfold try_except, call_completion, emit, answer_of, raise, ret.
      destruct (chat_completions_create ext _); reflexivity.
Qed.


End Agent.

End RawFacts.

Module RawService.
Import RawFacts.









End RawService.

(** X5. [get_response] on a history of dicts raises only [KeyError],
    and exactly when one of the last six messages lacks ["role"] or
    ["content"]; every failure of a service comes back in the returned
    string or is passed over. It never builds an index, asks the
    retriever at most once and sends at most two completion requests.
    On messages that all have both keys it is the function of the record
    model: it returns a string, asks the retriever exactly once, for
    three chunks of the store it was given, and sends two completion
    requests when the history is non-empty and one when it is empty or
    [None]. *)
Theorem get_response_raises_only_KeyError
    (self : ChatAgent) (ext : Externals) (query : string) (vs : VectorStore)
    (chat_history : option (list RawMessage)) :
  let o := raw_get_response self ext query vs chat_history in
  let window := Py.last_n 6 (raw_history_of chat_history) in
  ((exists e, value_of o = inl e) <-> Exists incomplete window)
  /\ (forall e, value_of o = inl e -> kind e = KeyError)
  /\ index_builds (trace_of o) = []
  /\ List.length (retrievals (trace_of o)) <= 1
  /\ List.length (completions (trace_of o)) <= 2
  /\ (forall ms, raw_history_of chat_history = map raw_of ms ->
      o = get_response self ext query vs (Some ms)
      /\ exists answer cq,
           value_of o = inr answer
           /\ retrievals (trace_of o) = [(vs, 3, cq)]
           /\ List.length (completions (trace_of o))
              = (if Py.nonempty ms then 2 else 1)).
Proof.
  cbv zeta.
  assert (A : forall ms, raw_history_of chat_history = map raw_of ms ->
              raw_get_response self ext query vs chat_history
              = get_response self ext query vs (Some ms)).
  { intros ms Hms. rewrite <- RawFacts.get_response_raw_of.
    unfold raw_get_response. cbn [raw_history_of]. now rewrite Hms. }
  destruct (RawFacts.get_response_cases self ext query vs chat_history)
    as [(e & t & K & E & -> & B & R & C)
       |(ms & tq & cq & req & H6 & Htq & _ & Ho)].
  - unfold value_of, trace_of. cbn [fst snd].
    split; [split; [intros _; exact E | intros _; now exists e]|].
    split; [now intros x [= <-]|].
    split; [exact B|]. split; [exact R|]. split; [lia|].
    intros ms Hms. exfalso. rewrite Hms, RawFacts.last_n_map in E.
    now apply RawFacts.complete_raw_of in E.
  - rewrite Ho in A |- *. unfold value_of, trace_of. cbn [fst snd].
    split.
    { split; [intros [e He]; discriminate|].
      intros E. rewrite H6 in E. now apply RawFacts.complete_raw_of in E. }
    split; [discriminate|].
    assert (T : index_builds
                  (tq ++ [GetRelevantDocuments vs 3 cq; ChatCompletion req])
                = []
                /\ retrievals
                     (tq ++ [GetRelevantDocuments vs 3 cq; ChatCompletion req])
                   = [(vs, 3, cq)]
                /\ List.length
                     (completions
                        (tq ++ [GetRelevantDocuments vs 3 cq;
                                ChatCompletion req]))
                   = S (List.length tq)).
    { destruct Htq as [->|[r ->]]; repeat split. }
    destruct T as (Tb & Tr & Tc). rewrite Tb, Tr, Tc.
    split; [reflexivity|]. split; [simpl; lia|].
    split; [destruct Htq as [->|[r ->]]; simpl; lia|].
    intros ms' Hms. split; [now apply A|].
    destruct (AgentMore.get_response_observed self ext query vs (Some ms'))
      as (answer & cq' & _ & _ & _ & Hc & _).
    rewrite <- (A ms' Hms) in Hc. unfold trace_of in Hc. cbn [fst] in Hc.
    rewrite Tc in Hc. exists (answer_of ext req), cq.
    split; [reflexivity|]. split; [reflexivity|]. exact Hc.
Qed.

Lemma get_response_raises_only_KeyError_witness :
  exists e,
    value_of (raw_get_response ChatAgent_init Sample.services
                "What is the blood pressure?" {| chunks := [Sample.report] |}
                (Some [raw_of Sample.question; Sample3.no_content]))
    = inl e.
Proof.
  apply (proj2 (proj1 (get_response_raises_only_KeyError ChatAgent_init
                         Sample.services "What is the blood pressure?"
                         {| chunks := [Sample.report] |}
                         (Some [raw_of Sample.question; Sample3.no_content])))).
  apply Exists_cons_tl, Exists_cons_hd. reflexivity.
Defined.


